(** * klukoo-ai: the forecast, predict and summarize handlers of src/index.js

    A shallow embedding of the three Express handlers of [src/index.js] and
    of the part of JavaScript they rely on (dynamic values, the coercions
    [ToBoolean], [ToNumber], [ToString], the string methods, [Math.min],
    [Math.max], [Math.floor]), followed by the properties of the handlers.
    The repository also holds an earlier variant of the handlers
    ([src/unnamed/part_000]), without validation, baseline or fallbacks; its
    forecast and predict handlers are embedded too.

    Modelling conventions.
    - A JavaScript number is [NaN], an infinity, or a finite value kept as an
      exact rational: the arithmetic of finite values is exact, binary64
      rounding, overflow and the sign of zero are not modelled.
    - A string is a sequence of 8-bit characters; [toLowerCase] and [trim]
      follow ECMAScript on the ASCII range.
    - [req.body] is a JSON object, given by its fields. (An array body is
      not covered: there [values] would be [Array.prototype.values].)
    - The conversions of a value to a primitive, a string or a number throw
      a [TypeError] where ECMAScript does: on an object that has a property
      [toString] of its own, which JSON cannot make callable.
    - The built-ins whose result depends on the engine or on the locale
      ([parseFloat], string-to-number and number-to-string conversion,
      [JSON.parse], the local-time rendering of a date) are the fields of a
      [Platform]; every property is proved for all platforms.
    - The completion provider, [Math.random], the clock and [console.error]
      are events of a small free monad; a [world] answers them. *)

From Stdlib Require Import ZArith QArith Qround Qabs String Ascii List Bool Lia Lqa.
Import ListNotations.
Open Scope string_scope.
Open Scope Z_scope.

(* ================================================================== *)
(** ** Numbers *)

Inductive number : Type :=
| NaN
| PInf
| NInf
| Fin (q : Q).

Definition Qsign (q : Q) : comparison := (0 ?= q)%Q.

Definition is_nan (n : number) : bool :=
  match n with NaN => true | _ => false end.

Definition num_neg (n : number) : number :=
  match n with
  | NaN => NaN
  | PInf => NInf
  | NInf => PInf
  | Fin q => Fin (Qred (- q))
  end.

Definition num_add (a b : number) : number :=
  match a, b with
  | NaN, _ | _, NaN => NaN
  | PInf, NInf | NInf, PInf => NaN
  | PInf, _ | _, PInf => PInf
  | NInf, _ | _, NInf => NInf
  | Fin x, Fin y => Fin (Qred (x + y))
  end.

Definition num_sub (a b : number) : number := num_add a (num_neg b).

(** The product of an infinity and a finite value: [NaN] at zero, otherwise
    the infinity with the product of the signs. *)
Definition inf_times (positive : bool) (q : Q) : number :=
  match Qsign q with
  | Eq => NaN
  | Lt => if positive then PInf else NInf
  | Gt => if positive then NInf else PInf
  end.

Definition num_mul (a b : number) : number :=
  match a, b with
  | NaN, _ | _, NaN => NaN
  | PInf, PInf | NInf, NInf => PInf
  | PInf, NInf | NInf, PInf => NInf
  | PInf, Fin q | Fin q, PInf => inf_times true q
  | NInf, Fin q | Fin q, NInf => inf_times false q
  | Fin x, Fin y => Fin (Qred (x * y))
  end.

(** [a < b] of JavaScript on numbers: false as soon as one side is [NaN]. *)
Definition num_ltb (a b : number) : bool :=
  match a, b with
  | NaN, _ | _, NaN => false
  | _, NInf => false
  | NInf, _ => true
  | PInf, _ => false
  | _, PInf => true
  | Fin x, Fin y => match (x ?= y)%Q with Lt => true | _ => false end
  end.

Definition num_gtb (a b : number) : bool := num_ltb b a.

(** [a <= b] of JavaScript on numbers. *)
Definition num_leb (a b : number) : bool :=
  match a, b with
  | NaN, _ | _, NaN => false
  | NInf, _ => true
  | _, PInf => true
  | _, NInf => false
  | PInf, _ => false
  | Fin x, Fin y => match (x ?= y)%Q with Gt => false | _ => true end
  end.

(** [Math.min(a, b)] and [Math.max(a, b)]: [NaN] as soon as one argument is. *)
Definition Math_min (a b : number) : number :=
  if is_nan a || is_nan b then NaN else if num_ltb b a then b else a.

Definition Math_max (a b : number) : number :=
  if is_nan a || is_nan b then NaN else if num_ltb a b then b else a.

Definition Math_floor (a : number) : number :=
  match a with
  | Fin q => Fin (inject_Z (Qfloor q))
  | other => other
  end.

Definition num_of_Z (z : Z) : number := Fin (inject_Z z).

(* ================================================================== *)
(** ** Strings *)

Definition is_upper (c : ascii) : bool :=
  let n := nat_of_ascii c in (65 <=? n)%nat && (n <=? 90)%nat.

Definition lower_char (c : ascii) : ascii :=
  if is_upper c then ascii_of_nat (nat_of_ascii c + 32) else c.

(** [String.prototype.toLowerCase] *)
Fixpoint toLowerCase (s : string) : string :=
  match s with
  | EmptyString => EmptyString
  | String c rest => String (lower_char c) (toLowerCase rest)
  end.

(** [String.prototype.indexOf(needle)]: the first position where [needle]
    starts, [-1] when there is none; [from] counts the characters skipped. *)
Fixpoint indexOf_from (from : Z) (needle hay : string) : Z :=
  if prefix needle hay then from
  else match hay with
       | EmptyString => -1
       | String _ rest => indexOf_from (from + 1) needle rest
       end.

Definition indexOf (hay needle : string) : Z := indexOf_from 0 needle hay.

(** [String.prototype.lastIndexOf(needle)] *)
Fixpoint lastIndexOf_from (from : Z) (found : Z) (needle hay : string) : Z :=
  let found' := if prefix needle hay then from else found in
  match hay with
  | EmptyString => found'
  | String _ rest => lastIndexOf_from (from + 1) found' needle rest
  end.

Definition lastIndexOf (hay needle : string) : Z :=
  lastIndexOf_from 0 (-1) needle hay.

(** [String.prototype.includes(needle)] *)
Definition includes (hay needle : string) : bool := 0 <=? indexOf hay needle.

(** [String.prototype.slice(start, end)], negative positions counting from
    the end of the string. *)
Definition slice (s : string) (start stop : Z) : string :=
  let len := Z.of_nat (String.length s) in
  let from := if start <? 0 then Z.max (len + start) 0 else Z.min start len in
  let to := if stop <? 0 then Z.max (len + stop) 0 else Z.min stop len in
  substring (Z.to_nat from) (Z.to_nat (Z.max (to - from) 0)) s.

(** White space and line terminators of the ASCII range. *)
Definition is_space (c : ascii) : bool :=
  let n := nat_of_ascii c in
  ((9 <=? n)%nat && (n <=? 13)%nat) || (n =? 32)%nat.

Fixpoint trimStart (s : string) : string :=
  match s with
  | EmptyString => EmptyString
  | String c rest => if is_space c then trimStart rest else s
  end.

Fixpoint trimEnd (s : string) : string :=
  match s with
  | EmptyString => EmptyString
  | String c rest =>
      match trimEnd rest with
      | EmptyString => if is_space c then EmptyString else String c EmptyString
      | kept => String c kept
      end
  end.

(** [String.prototype.trim] *)
Definition trim (s : string) : string := trimEnd (trimStart s).

(* ================================================================== *)
(** ** Values *)

(** The values a JSON body or a parsed provider answer can hold, and
    [undefined] for a property that is not there. *)
#[warnings="-register-all"]
Inductive value : Type :=
| VUndefined
| VNull
| VBool (b : bool)
| VNum (n : number)
| VStr (s : string)
| VArr (items : list value)
| VObj (fields : list (string * value)).

Fixpoint lookup (key : string) (fields : list (string * value)) : option value :=
  match fields with
  | [] => None
  | (k, v) :: rest => if String.eqb k key then Some v else lookup key rest
  end.

(** Reading the property [key] of an object; [undefined] when it is absent.
    None of the keys read in [src/index.js] is inherited from
    [Object.prototype]. *)
Definition prop (key : string) (fields : list (string * value)) : value :=
  match lookup key fields with
  | Some v => v
  | None => VUndefined
  end.

(** [obj.key = v] on the fields of an object. *)
Fixpoint assign (key : string) (v : value) (fields : list (string * value))
  : list (string * value) :=
  match fields with
  | [] => [(key, v)]
  | (k, old) :: rest =>
      if String.eqb k key then (k, v) :: rest else (k, old) :: assign key v rest
  end.

Definition ToBoolean (v : value) : bool :=
  match v with
  | VUndefined | VNull => false
  | VBool b => b
  | VNum NaN => false
  | VNum (Fin q) => negb (Qeq_bool q 0)
  | VNum _ => true
  | VStr s => negb (String.eqb s "")
  | VArr _ | VObj _ => true
  end.

(** [!v] *)
Definition js_not (v : value) : bool := negb (ToBoolean v).

(** [v === s] for a string literal [s]. *)
Definition strict_eq_string (v : value) (s : string) : bool :=
  match v with
  | VStr t => String.eqb t s
  | _ => false
  end.

Definition Array_isArray (v : value) : bool :=
  match v with VArr _ => true | _ => false end.

(** The items of an array, for [v.length] and [v[v.length - 1]]. *)
Definition items_of (v : value) : list value :=
  match v with VArr items => items | _ => [] end.

(** [Array.prototype.indexOf(s)] and [lastIndexOf(s)] for a string [s]:
    the items are compared with [===]. *)
Fixpoint array_indexOf_from (from : Z) (s : string) (items : list value) : Z :=
  match items with
  | [] => -1
  | x :: rest =>
      if strict_eq_string x s then from else array_indexOf_from (from + 1) s rest
  end.

Definition array_indexOf (items : list value) (s : string) : Z :=
  array_indexOf_from 0 s items.

Fixpoint array_lastIndexOf_from (from found : Z) (s : string) (items : list value) : Z :=
  match items with
  | [] => found
  | x :: rest =>
      array_lastIndexOf_from (from + 1) (if strict_eq_string x s then from else found)
                             s rest
  end.

Definition array_lastIndexOf (items : list value) (s : string) : Z :=
  array_lastIndexOf_from 0 (-1) s items.

(** [Array.prototype.slice(start, end)] *)
Definition array_slice (items : list value) (start stop : Z) : list value :=
  let len := Z.of_nat (List.length items) in
  let from := if start <? 0 then Z.max (len + start) 0 else Z.min start len in
  let to := if stop <? 0 then Z.max (len + stop) 0 else Z.min stop len in
  firstn (Z.to_nat (Z.max (to - from) 0)) (skipn (Z.to_nat from) items).

(* ================================================================== *)
(** ** Effects: the provider, the random source, the clock and the log *)

Inductive error : Type :=
| TypeError
| SyntaxError
| ProviderError (message : string).

(** The template literals of [src/index.js] are kept as the texts they
    interpolate; the fixed prose around them is not transcribed. The summary
    prompt interpolates [JSON.stringify(values)], kept as [values]. *)
Inductive prompt : Type :=
| ForecastPrompt (currentGlucose : string)
| PredictPrompt (readings insulinType insulinUnits calories activity : string)
| SummaryPrompt (values : value).

(** The argument of [openai.chat.completions.create]. *)
Record request : Type := {
  model : string;
  messages : prompt;
  temperature : Q;
  max_tokens : Z
}.

(** How the awaited promise of the provider settles. *)
Inductive settled : Type :=
| Rejected (e : error)
| Resolved (completion : value).

Inductive event : Type -> Type :=
| Create (r : request) : event settled
| Math_random : event Q
| Date_now : event Z
| console_error (label : string) (e : error) : event unit.

(** Handler code: it returns, throws, or performs an event and goes on. *)
Inductive prog (A : Type) : Type :=
| Ret (a : A)
| Throw (e : error)
| Vis (X : Type) (ev : event X) (k : X -> prog A).

Arguments Ret {A} a.
Arguments Throw {A} e.
Arguments Vis {A X} ev k.

Fixpoint bind {A B : Type} (p : prog A) (f : A -> prog B) : prog B :=
  match p with
  | Ret a => f a
  | Throw e => Throw e
  | Vis ev k => Vis ev (fun x => bind (k x) f)
  end.

(** [try { p } catch (error) { h error }] *)
Fixpoint try_catch {A : Type} (p : prog A) (h : error -> prog A) : prog A :=
  match p with
  | Ret a => Ret a
  | Throw e => h e
  | Vis ev k => Vis ev (fun x => try_catch (k x) h)
  end.

Declare Scope prog_scope.
Delimit Scope prog_scope with prog.
Notation "x <- p ;; k" := (bind p (fun x => k))
  (at level 61, p at next level, right associativity) : prog_scope.
Notation "p ;; k" := (bind p (fun _ => k))
  (at level 61, right associativity) : prog_scope.
Open Scope prog_scope.

Definition trigger {X : Type} (ev : event X) : prog X := Vis ev Ret.

(** [await openai.chat.completions.create(r)] *)
Definition await_create (r : request) : prog value :=
  s <- trigger (Create r) ;;
  match s with
  | Rejected e => Throw e
  | Resolved completion => Ret completion
  end.

(** What a run of a handler leaves behind. *)
Inductive observation : Type :=
| Called (r : request)
| Drew
| ReadClock
| Logged (label : string) (e : error).

Record world : Type := {
  provider : request -> settled;
  random : Q;
  now : Z
}.

Definition answer {X : Type} (w : world) (ev : event X) : X * observation :=
  match ev in event T return T * observation with
  | Create r => (provider w r, Called r)
  | Math_random => (random w, Drew)
  | Date_now => (now w, ReadClock)
  | console_error label e => (tt, Logged label e)
  end.

(** The run of a program in a world: what it did, and how it ended
    ([inr e]: the error [e] escaped). *)
Fixpoint run {A : Type} (w : world) (p : prog A) : list observation * (A + error) :=
  match p with
  | Ret a => ([], inl a)
  | Throw e => ([], inr e)
  | Vis ev k =>
      let (x, o) := answer w ev in
      let (t, r) := run w (k x) in
      (o :: t, r)
  end.

Fixpoint provider_calls (t : list observation) : list request :=
  match t with
  | [] => []
  | Called r :: rest => r :: provider_calls rest
  | _ :: rest => provider_calls rest
  end.

(* ================================================================== *)
(** ** The built-ins taken from the platform, and the conversions *)

Class Platform : Type := {
  (** [StringToNumber] of ECMAScript, the conversion behind [Number(s)]. *)
  StringToNumber : string -> number;
  (** [Number::toString], the conversion behind [String(n)]. *)
  NumberToString : number -> string;
  (** [parseFloat] on a string. *)
  parseFloat : string -> number;
  (** [JSON.parse] on a string; [None] when it throws a [SyntaxError]. *)
  JSON_parse : string -> option value;
  (** [Date.prototype.toTimeString] of a valid time value (milliseconds). *)
  timeString : Z -> string
}.

Section Coercions.
Context {P : Platform}.

(** [ToString]. An array prints its items joined by commas; an object prints
    through [Object.prototype.toString] unless it has a [toString] of its
    own, which is not callable: then neither method gives a primitive. *)
Fixpoint ToString (v : value) : prog string :=
  match v with
  | VUndefined => Ret "undefined"
  | VNull => Ret "null"
  | VBool true => Ret "true"
  | VBool false => Ret "false"
  | VNum n => Ret (NumberToString n)
  | VStr s => Ret s
  | VArr items =>
      (fix join_commas (l : list value) : prog string :=
         match l with
         | [] => Ret ""
         | x :: rest =>
             shown <- match x with
                      | VUndefined | VNull => Ret ""
                      | _ => ToString x
                      end ;;
             match rest with
             | [] => Ret shown
             | _ => more <- join_commas rest ;; Ret (shown ++ "," ++ more)
             end
         end) items
  | VObj fields =>
      match lookup "toString" fields with
      | Some _ => Throw TypeError
      | None => Ret "[object Object]"
      end
  end.

(** [Array.prototype.join(sep)]: [undefined] and [null] items print as the
    empty string. *)
Fixpoint join (sep : string) (items : list value) : prog string :=
  match items with
  | [] => Ret ""
  | x :: rest =>
      shown <- match x with
               | VUndefined | VNull => Ret ""
               | _ => ToString x
               end ;;
      match rest with
      | [] => Ret shown
      | _ => more <- join sep rest ;; Ret (shown ++ sep ++ more)
      end
  end.

(** [ToPrimitive]: arrays and objects go through their [toString], their
    [valueOf] giving no primitive. *)
Definition ToPrimitive (v : value) : prog value :=
  match v with
  | VArr _ | VObj _ => s <- ToString v ;; Ret (VStr s)
  | _ => Ret v
  end.

(** [ToNumber] of a primitive. *)
Definition primitive_number (p : value) : number :=
  match p with
  | VUndefined => NaN
  | VNull => Fin 0
  | VBool true => Fin 1
  | VBool false => Fin 0
  | VNum n => n
  | VStr s => StringToNumber s
  | VArr _ | VObj _ => NaN
  end.

Definition ToNumber (v : value) : prog number :=
  p <- ToPrimitive v ;; Ret (primitive_number p).

(** The global [isNaN(v)]. *)
Definition isNaN (v : value) : prog bool :=
  n <- ToNumber v ;; Ret (is_nan n).

(** [ToString] of a primitive. *)
Definition primitive_string (p : value) : string :=
  match p with
  | VUndefined => "undefined"
  | VNull => "null"
  | VBool true => "true"
  | VBool false => "false"
  | VNum n => NumberToString n
  | VStr s => s
  | VArr _ | VObj _ => ""
  end.

(** [a + b]: concatenation as soon as one primitive is a string. *)
Definition js_add (a b : value) : prog value :=
  pa <- ToPrimitive a ;;
  pb <- ToPrimitive b ;;
  match pa, pb with
  | VStr s, _ => Ret (VStr (s ++ primitive_string pb))
  | _, VStr s => Ret (VStr (primitive_string pa ++ s))
  | _, _ => Ret (VNum (num_add (primitive_number pa) (primitive_number pb)))
  end.

(** [a * b] *)
Definition js_mul (a b : value) : prog number :=
  na <- ToNumber a ;;
  nb <- ToNumber b ;;
  Ret (num_mul na nb).

(** [a < b] and [a > b]: two strings compare as strings, anything else as
    numbers. *)
Definition js_lt (a b : value) : prog bool :=
  pa <- ToPrimitive a ;;
  pb <- ToPrimitive b ;;
  match pa, pb with
  | VStr s, VStr t => Ret (String.ltb s t)
  | _, _ => Ret (num_ltb (primitive_number pa) (primitive_number pb))
  end.

Definition js_gt (a b : value) : prog bool :=
  pa <- ToPrimitive a ;;
  pb <- ToPrimitive b ;;
  match pb, pa with
  | VStr s, VStr t => Ret (String.ltb s t)
  | _, _ => Ret (num_ltb (primitive_number pb) (primitive_number pa))
  end.

End Coercions.

(* ================================================================== *)
(** ** Property access and method calls that can throw *)

(** [v.key]: a [TypeError] on [undefined] and [null]. The keys read in
    [src/index.js] are no built-in property of a primitive or of an array. *)
Definition member (key : string) (v : value) : prog value :=
  match v with
  | VUndefined | VNull => Throw TypeError
  | VObj fields => Ret (prop key fields)
  | _ => Ret VUndefined
  end.

(** [v[0]] *)
Definition first_item (v : value) : prog value :=
  match v with
  | VUndefined | VNull => Throw TypeError
  | VArr items => Ret (nth 0 items VUndefined)
  | VObj fields => Ret (prop "0" fields)
  | VStr (String c _) => Ret (VStr (String c EmptyString))
  | _ => Ret VUndefined
  end.

(** [completion.choices[0].message.content] *)
Definition message_content (completion : value) : prog value :=
  choices <- member "choices" completion ;;
  choice <- first_item choices ;;
  message <- member "message" choice ;;
  member "content" message.

(** [v.trim()]: only a string has the method. *)
Definition call_trim (v : value) : prog string :=
  match v with
  | VStr s => Ret (trim s)
  | _ => Throw TypeError
  end.

(** [v.indexOf(s)], [v.lastIndexOf(s)] and [v.slice(start, end)]: strings
    and arrays have the three methods. *)
Definition call_indexOf (v : value) (s : string) : prog Z :=
  match v with
  | VStr text => Ret (indexOf text s)
  | VArr items => Ret (array_indexOf items s)
  | _ => Throw TypeError
  end.

Definition call_lastIndexOf (v : value) (s : string) : prog Z :=
  match v with
  | VStr text => Ret (lastIndexOf text s)
  | VArr items => Ret (array_lastIndexOf items s)
  | _ => Throw TypeError
  end.

Definition call_slice (v : value) (start stop : Z) : prog value :=
  match v with
  | VStr text => Ret (VStr (slice text start stop))
  | VArr items => Ret (VArr (array_slice items start stop))
  | _ => Throw TypeError
  end.

(** [v?.toLowerCase().includes(needle)] as a condition: [undefined], hence
    false, on [undefined] and [null]; a [TypeError] on any other value that
    is not a string. *)
Definition optional_lower_includes (v : value) (needle : string) : prog bool :=
  match v with
  | VUndefined | VNull => Ret false
  | VStr s => Ret (includes (toLowerCase s) needle)
  | _ => Throw TypeError
  end.

(** The time value of [new Date(t)]: [None] for an invalid date. *)
Definition TimeClip (t : number) : option Z :=
  match t with
  | Fin q =>
      if Qle_bool (Qabs q) (inject_Z 8640000000000000)
      then Some (if Qle_bool 0 q then Qfloor q else Qceiling q)
      else None
  | _ => None
  end.

Definition toTimeString {P : Platform} (date : option Z) : string :=
  match date with
  | Some t => timeString t
  | None => "Invalid Date"
  end.

(* ================================================================== *)
(** ** Responses *)

Record response : Type := { status : Z; body : value }.

(** [res.status(code).json(payload)]; [res.json(payload)] is the case 200. *)
Definition json (code : Z) (payload : value) : prog response :=
  Ret {| status := code; body := payload |}.

(* ================================================================== *)
(** ** The handlers of src/index.js *)

Section Handlers.
Context {P : Platform}.

(** The requests sent to the provider (lines 29 to 34, 102 to 107 and 191 to
    199). *)
Definition forecast_request (currentGlucose : string) : request :=
  {| model := "gpt-3.5-turbo";
     messages := ForecastPrompt currentGlucose;
     temperature := 2 # 10;
     max_tokens := 50 |}.

Definition predict_request (p : prompt) : request :=
  {| model := "gpt-3.5-turbo";
     messages := p;
     temperature := 2 # 10;
     max_tokens := 150 |}.

Definition summarize_request (values : value) : request :=
  {| model := "gpt-3.5-turbo";
     messages := SummaryPrompt values;
     temperature := 2 # 10;
     max_tokens := 300 |}.

(** Line 17: [!currentGlucose || isNaN(currentGlucose)]. *)
Definition invalid_glucose_value (currentGlucose : value) : prog bool :=
  if js_not currentGlucose then Ret true else isNaN currentGlucose.

(** Line 41: the plausibility test. *)
Definition plausible (forecast : number) : bool :=
  negb (is_nan forecast) && num_gtb forecast (Fin 40) && num_ltb forecast (Fin 400).

(** Line 43: [Math.floor(Math.random() * 10 - 5)], with [draw] the value
    [Math.random()] returned. *)
Definition random_offset (draw : Q) : number :=
  Math_floor (num_sub (num_mul (Fin draw) (Fin 10)) (Fin 5)).

(** Line 43: [Number(currentGlucose) + Math.floor(Math.random() * 10 - 5)]. *)
Definition fallbackForecast (currentGlucose : value) : prog number :=
  base <- ToNumber currentGlucose ;;
  draw <- trigger Math_random ;;
  Ret (num_add base (random_offset draw)).

(** [app.post('/forecast', ...)] *)
Definition forecast_handler (reqbody : list (string * value)) : prog response :=
  let currentGlucose := prop "currentGlucose" reqbody in
  invalid <- invalid_glucose_value currentGlucose ;;
  if invalid then
    json 400 (VObj [("error", VStr "Invalid glucose value")])
  else
    shown <- ToString currentGlucose ;;
    try_catch
      (completion <- await_create (forecast_request shown) ;;
       content <- message_content completion ;;
       forecastRaw <- call_trim content ;;
       let forecast := parseFloat forecastRaw in
       safeForecast <-
         (if plausible forecast then Ret forecast
          else fallbackForecast currentGlucose) ;;
       json 200 (VObj [("forecast", VNum safeForecast)]))
      (fun error =>
         trigger (console_error "Forecast error:" error) ;;
         json 500 (VObj [("error", VStr "Forecast failed")])).

(** Lines 64 to 69: the physiological adjustment. *)
Definition adjustment_of (insulinType insulinUnits calories activity : value)
  : prog number :=
  let adjustment := Fin 0 in
  fast <- optional_lower_includes insulinType "fast" ;;
  adjustment <-
    (if fast then dose <- js_mul insulinUnits (VNum (Fin 3)) ;;
                  Ret (num_sub adjustment dose)
     else Ret adjustment) ;;
  long <- optional_lower_includes insulinType "long" ;;
  adjustment <-
    (if long then dose <- js_mul insulinUnits (VNum (Fin (3 # 2))) ;;
                  Ret (num_sub adjustment dose)
     else Ret adjustment) ;;
  heavy_meal <- js_gt calories (VNum (Fin 400)) ;;
  let adjustment :=
    if heavy_meal then num_add adjustment (Fin 15) else adjustment in
  walk <- optional_lower_includes activity "walk" ;;
  moving <- (if walk then Ret true else optional_lower_includes activity "run") ;;
  let adjustment :=
    if moving then num_sub adjustment (Fin 10) else adjustment in
  Ret adjustment.

(** Lines 61, 71 and 72: [boundedForecast] from the history and the
    adjustment. *)
Definition boundedForecast_of (glucoseHistory : value) (adjustment : number)
  : prog number :=
  let latestGlucose := last (items_of glucoseHistory) VUndefined in
  approxForecast <- js_add latestGlucose (VNum adjustment) ;;
  approx <- ToNumber approxForecast ;;
  Ret (Math_max (Fin 60) (Math_min approx (Fin 250))).

(** Lines 61 to 72 on the fields of the body. *)
Definition request_adjustment (reqbody : list (string * value)) : prog number :=
  adjustment_of (prop "insulinType" reqbody) (prop "insulinUnits" reqbody)
                (prop "calories" reqbody) (prop "activity" reqbody).

Definition request_baseline (reqbody : list (string * value)) : prog number :=
  adjustment <- request_adjustment reqbody ;;
  boundedForecast_of (prop "glucoseHistory" reqbody) adjustment.

(** Lines 75 to 99: the five interpolations of the prompt. *)
Definition request_prompt (reqbody : list (string * value)) : prog prompt :=
  readings <- join ", " (items_of (prop "glucoseHistory" reqbody)) ;;
  insulinType <- ToString (prop "insulinType" reqbody) ;;
  insulinUnits <- ToString (prop "insulinUnits" reqbody) ;;
  calories <- ToString (prop "calories" reqbody) ;;
  activity <- ToString (prop "activity" reqbody) ;;
  Ret (PredictPrompt readings insulinType insulinUnits calories activity).

(** Line 57: the validation of the history. *)
Definition history_missing (glucoseHistory : value) : bool :=
  js_not glucoseHistory
  || negb (Array_isArray glucoseHistory)
  || (Z.of_nat (List.length (items_of glucoseHistory)) =? 0).

(** Lines 109 to 113: the text handed to [JSON.parse] and its result. *)
Definition extract_json (text : value) : prog value :=
  jsonStart <- call_indexOf text "{" ;;
  jsonEnd <- call_lastIndexOf text "}" ;;
  jsonString <- call_slice text jsonStart (jsonEnd + 1) ;;
  source <- ToString jsonString ;;
  match JSON_parse source with
  | Some parsed => Ret parsed
  | None => Throw SyntaxError
  end.

(** The properties of [parsed] the handler reads and writes: those of an
    object; none on an array; reading a property of [null] throws, and so
    does, in the strict mode of a module, line 116 on a primitive (its
    [forecast_mgdl] is [undefined], and the assignment is refused). *)
Definition fields_of_parsed (parsed : value) : prog (list (string * value)) :=
  match parsed with
  | VObj fields => Ret fields
  | VArr _ => Ret []
  | _ => Throw TypeError
  end.

(** Line 116 *)
Definition with_forecast (boundedForecast : number) (parsed : list (string * value))
  : prog (list (string * value)) :=
  missing <- isNaN (prop "forecast_mgdl" parsed) ;;
  if missing then Ret (assign "forecast_mgdl" (VNum boundedForecast) parsed)
  else Ret parsed.

(** Lines 117 to 121 *)
Definition with_risk (parsed : list (string * value)) : prog (list (string * value)) :=
  if js_not (prop "risk_type" parsed) then
    low <- js_lt (prop "forecast_mgdl" parsed) (VNum (Fin 100)) ;;
    if low then Ret (assign "risk_type" (VStr "Hypo risk") parsed)
    else
      high <- js_gt (prop "forecast_mgdl" parsed) (VNum (Fin 150)) ;;
      if high then Ret (assign "risk_type" (VStr "Hyper risk") parsed)
      else Ret (assign "risk_type" (VStr "Stable") parsed)
  else Ret parsed.

(** Lines 123 to 132: the single alert, [clock] being [now.getTime()]. *)
Definition alertList_of (clock : Z) (parsed : list (string * value)) : prog value :=
  delay <- js_mul (prop "forecast_minutes" parsed) (VNum (Fin 60000)) ;;
  let alertTime := TimeClip (num_add (num_of_Z clock) delay) in
  Ret (VArr [VObj [("risk", prop "risk_type" parsed);
                   ("in_minutes", prop "forecast_minutes" parsed);
                   ("time", VStr (slice (toTimeString alertTime) 0 5))]]).

(** Lines 134 to 155 *)
Definition mainAlert_of (risk_type : value) : value :=
  if strict_eq_string risk_type "Hypo risk" then
    VObj [("type", VStr "Predictive Alert!");
          ("message", VStr "Risk of Hypoglycemia forecasted. Check your BG and take necessary actions (consume fast-acting carbs).");
          ("color", VStr "#e74c3c")]
  else if strict_eq_string risk_type "Hyper risk" then
    VObj [("type", VStr "Warning!");
          ("message", VStr "Risk of Hyperglycemia forecasted. Consider monitoring and adjusting insulin if advised.");
          ("color", VStr "#f1c40f")]
  else
    VObj [("type", VStr "Stable");
          ("message", VStr "No immediate risk detected. Continue monitoring as usual.");
          ("color", VStr "#2ecc71")].

(** Lines 157 to 162: the body of the successful response. *)
Definition predict_payload (boundedForecast : number) (alertList : value)
           (parsed : list (string * value)) : value :=
  VObj [("forecast_mgdl", prop "forecast_mgdl" parsed);
        ("main_alert", mainAlert_of (prop "risk_type" parsed));
        ("alerts", alertList);
        ("baseline", VNum boundedForecast)].

(** Lines 109 to 162: the body of the [try] block once the provider has
    answered. *)
Definition predict_answer (boundedForecast : number) (completion : value)
  : prog response :=
  text <- message_content completion ;;
  parsed <- extract_json text ;;
  parsed <- fields_of_parsed parsed ;;
  parsed <- with_forecast boundedForecast parsed ;;
  parsed <- with_risk parsed ;;
  clock <- trigger Date_now ;;
  alertList <- alertList_of clock parsed ;;
  json 200 (predict_payload boundedForecast alertList parsed).

(** [app.post('/predict', ...)] *)
Definition predict_handler (reqbody : list (string * value)) : prog response :=
  if history_missing (prop "glucoseHistory" reqbody) then
    json 400 (VObj [("error", VStr "Glucose history is required")])
  else
    boundedForecast <- request_baseline reqbody ;;
    prompt <- request_prompt reqbody ;;
    try_catch
      (completion <- await_create (predict_request prompt) ;;
       predict_answer boundedForecast completion)
      (fun error =>
         trigger (console_error "Prediction error:" error) ;;
         json 500 (VObj [("error", VStr "Prediction failed")])).

(** [app.post('/summarize', ...)] *)
Definition summarize_handler (reqbody : list (string * value)) : prog response :=
  try_catch
    (let values := prop "values" reqbody in
     if js_not values then
       json 400 (VObj [("message", VStr "No values provided")])
     else
       chat <- await_create (summarize_request values) ;;
       content <- message_content chat ;;
       summary <- call_trim content ;;
       json 200 (VObj [("summary", VStr summary)]))
    (fun error =>
       trigger (console_error "Summary error:" error) ;;
       json 500 (VObj [("message", VStr "Error generating summary")])).

End Handlers.

(* ================================================================== *)
(** ** The earlier variant of the handlers (src/unnamed/part_000)

    The forecast and predict handlers as they were before the validation,
    the baseline and the fallbacks were added. The prompts are kept by the
    same convention as above. The summary handler of the earlier variant
    differs from [summarize_handler] in the prose of its prompt only. *)

Section EarlierHandlers.
Context {P : Platform}.

(** The requests sent to the provider (lines 26 to 31 and 68 to 73). *)
Definition earlier_forecast_request (currentGlucose : string) : request :=
  {| model := "gpt-3.5-turbo";
     messages := ForecastPrompt currentGlucose;
     temperature := 2 # 10;
     max_tokens := 100 |}.

Definition earlier_predict_request (p : prompt) : request :=
  {| model := "gpt-3.5-turbo";
     messages := p;
     temperature := 3 # 10;
     max_tokens := 300 |}.

(** [app.post('/forecast', ...)], lines 15 to 39: the text of the provider
    is the forecast. *)
Definition earlier_forecast_handler (reqbody : list (string * value)) : prog response :=
  let currentGlucose := prop "currentGlucose" reqbody in
  shown <- ToString currentGlucose ;;
  try_catch
    (completion <- await_create (earlier_forecast_request shown) ;;
     content <- message_content completion ;;
     forecast <- call_trim content ;;
     json 200 (VObj [("forecast", VStr forecast)]))
    (fun error =>
       trigger (console_error "Forecast error:" error) ;;
       json 500 (VObj [("error", VStr "Forecast failed")])).

(** Lines 45 to 65: the five interpolations of the prompt; the history is
    interpolated as it is. *)
Definition earlier_request_prompt (reqbody : list (string * value)) : prog prompt :=
  readings <- ToString (prop "glucoseHistory" reqbody) ;;
  insulinType <- ToString (prop "insulinType" reqbody) ;;
  insulinUnits <- ToString (prop "insulinUnits" reqbody) ;;
  calories <- ToString (prop "calories" reqbody) ;;
  activity <- ToString (prop "activity" reqbody) ;;
  Ret (PredictPrompt readings insulinType insulinUnits calories activity).

(** The properties of [parsed] the earlier handler reads: those of an
    object; none on an array or on a primitive; reading a property of
    [null] throws. *)
Definition earlier_fields_of_parsed (parsed : value) : prog (list (string * value)) :=
  match parsed with
  | VObj fields => Ret fields
  | VUndefined | VNull => Throw TypeError
  | _ => Ret []
  end.

(** Lines 92 to 108 *)
Definition earlier_mainAlert_of (risk_type : value) : value :=
  if strict_eq_string risk_type "Hypo risk" then
    VObj [("type", VStr "Predictive Alert!");
          ("message", VStr "Risk of Hypoglycemia forecasted. Check your BG and take necessary actions.")]
  else if strict_eq_string risk_type "Hyper risk" then
    VObj [("type", VStr "Warning!");
          ("message", VStr "Risk of Hyperglycemia forecasted. Monitor closely.")]
  else
    VObj [("type", VStr "Stable");
          ("message", VStr "No immediate risk detected.")].

(** Lines 75 to 114: the body of the [try] block once the provider has
    answered. The clock is read before [parsed] is. *)
Definition earlier_predict_answer (completion : value) : prog response :=
  text <- message_content completion ;;
  parsed <- extract_json text ;;
  clock <- trigger Date_now ;;
  parsed <- earlier_fields_of_parsed parsed ;;
  alertList <- alertList_of clock parsed ;;
  json 200 (VObj [("forecast_mgdl", prop "forecast_mgdl" parsed);
                  ("main_alert", earlier_mainAlert_of (prop "risk_type" parsed));
                  ("alerts", alertList)]).

(** [app.post('/predict', ...)], lines 42 to 119 *)
Definition earlier_predict_handler (reqbody : list (string * value)) : prog response :=
  prompt <- earlier_request_prompt reqbody ;;
  try_catch
    (completion <- await_create (earlier_predict_request prompt) ;;
     earlier_predict_answer completion)
    (fun error =>
       trigger (console_error "Prediction error:" error) ;;
       json 500 (VObj [("error", VStr "Prediction failed")])).

End EarlierHandlers.

(* ================================================================== *)
(** ** A reference platform

    One platform on which the handlers can be evaluated: decimal literals
    are read as the exact rational they denote, numbers print in positional
    decimal notation, [JSON.parse] accepts the JSON grammar over 8-bit
    strings, and the local time zone is UTC. *)

Module Reference.

Definition digit_of (c : ascii) : option Z :=
  let n := nat_of_ascii c in
  if (48 <=? n)%nat && (n <=? 57)%nat then Some (Z.of_nat (n - 48)) else None.

(** A maximal run of decimal digits: its value, its length, what follows. *)
Fixpoint scan_digits (acc : Z) (count : Z) (s : string) : Z * Z * string :=
  match s with
  | EmptyString => (acc, count, s)
  | String c rest =>
      match digit_of c with
      | Some d => scan_digits (10 * acc + d) (count + 1) rest
      | None => (acc, count, s)
      end
  end.

Definition pow10 (e : Z) : Q :=
  if 0 <=? e then inject_Z (10 ^ e) else 1 # Z.to_pos (10 ^ (- e)).

(** An optional sign: [true] for a minus. *)
Definition scan_sign (allow_plus : bool) (s : string) : bool * string :=
  match s with
  | String "-" rest => (true, rest)
  | String "+" rest => if allow_plus then (false, rest) else (false, s)
  | _ => (false, s)
  end.

(** The exponent part [e], [E] with an optional sign and digits; absent or
    malformed, it is left unread and counts for zero. *)
Definition scan_exponent (s : string) : Z * string :=
  match s with
  | String c rest =>
      if (Ascii.eqb c "e" || Ascii.eqb c "E")%bool then
        let (negative, after_sign) := scan_sign true rest in
        match scan_digits 0 0 after_sign with
        | (e, n, after) =>
            if n =? 0 then (0, s) else ((if negative then - e else e), after)
        end
      else (0, s)
  | EmptyString => (0, s)
  end.

(** An unsigned decimal literal; [json] asks for the stricter JSON form (an
    integer part without a leading zero, digits after the point). *)
Definition scan_unsigned (json : bool) (s : string) : option (Q * string) :=
  match scan_digits 0 0 s with
  | (int, n1, after_int) =>
      let leading_zero :=
        match s with String "0" _ => 1 <? n1 | _ => false end in
      let '(frac, n2, after_frac, pointed) :=
        match after_int with
        | String "." rest =>
            match scan_digits 0 0 rest with
            | (f, n, after) =>
                if json && (n =? 0) then (0, 0, after_int, false)
                else (f, n, after, true)
            end
        | _ => (0, 0, after_int, false)
        end in
      if (n1 + n2 =? 0) || (json && ((n1 =? 0) || leading_zero)) then None
      else
        let (e, after_exp) := scan_exponent after_frac in
        Some (Qred (inject_Z (int * 10 ^ n2 + frac) * pow10 (e - n2)), after_exp)
  end.

(** [StrDecimalLiteral]: a sign, then [Infinity] or an unsigned literal. *)
Definition scan_decimal (s : string) : option (number * string) :=
  let (negative, after_sign) := scan_sign true s in
  if prefix "Infinity" after_sign then
    Some ((if negative then NInf else PInf),
          substring 8 (String.length after_sign - 8) after_sign)
  else
    match scan_unsigned false after_sign with
    | Some (q, rest) => Some (Fin (if negative then Qred (- q) else q), rest)
    | None => None
    end.

Definition parseFloat (s : string) : number :=
  match scan_decimal (trimStart s) with
  | Some (n, _) => n
  | None => NaN
  end.

(** Decimal literals only: the hexadecimal, octal and binary forms read as
    [NaN]. *)
Definition StringToNumber (s : string) : number :=
  match trim s with
  | EmptyString => Fin 0
  | t =>
      match scan_decimal t with
      | Some (n, EmptyString) => n
      | _ => NaN
      end
  end.

Definition digit_char (d : Z) : ascii := ascii_of_nat (48 + Z.to_nat d).

Fixpoint digits_of (fuel : nat) (n : Z) (acc : string) : string :=
  match fuel with
  | O => acc
  | S fuel' =>
      let acc' := String (digit_char (n mod 10)) acc in
      if n / 10 =? 0 then acc' else digits_of fuel' (n / 10) acc'
  end.

Definition Z_to_string (n : Z) : string :=
  let shown := digits_of (S (Z.to_nat (Z.log2 (Z.abs n)))) (Z.abs n) "" in
  if n <? 0 then "-" ++ shown else shown.

(** The digits after the point of [num / den], at most [fuel] of them. *)
Fixpoint fraction_digits (fuel : nat) (num den : Z) : string :=
  match fuel with
  | O => ""
  | S fuel' =>
      if num =? 0 then ""
      else String (digit_char (10 * num / den))
                  (fraction_digits fuel' ((10 * num) mod den) den)
  end.

(** Positional notation; the exponent notation of very large and very small
    numbers is not produced. *)
Definition NumberToString (n : number) : string :=
  match n with
  | NaN => "NaN"
  | PInf => "Infinity"
  | NInf => "-Infinity"
  | Fin q =>
      let num := Qnum q in
      let den := Zpos (Qden q) in
      let whole := Z.abs num / den in
      let part := Z.abs num mod den in
      let sign := if num <? 0 then "-" else "" in
      if part =? 0 then sign ++ Z_to_string whole
      else sign ++ Z_to_string whole ++ "." ++ fraction_digits 20 part den
  end.

Definition two_digits (n : Z) : string :=
  String (digit_char (n / 10)) (String (digit_char (n mod 10)) "").

Definition timeString (t : Z) : string :=
  let seconds := (t / 1000) mod 86400 in
  two_digits (seconds / 3600) ++ ":" ++ two_digits ((seconds / 60) mod 60)
    ++ ":" ++ two_digits (seconds mod 60)
    ++ " GMT+0000 (Coordinated Universal Time)".

(** *** JSON.parse *)

Definition is_json_space (c : ascii) : bool :=
  let n := nat_of_ascii c in
  (n =? 32)%nat || (n =? 9)%nat || (n =? 10)%nat || (n =? 13)%nat.

Fixpoint skip_ws (s : string) : string :=
  match s with
  | String c rest => if is_json_space c then skip_ws rest else s
  | EmptyString => s
  end.

Definition hex_of (c : ascii) : option nat :=
  let n := nat_of_ascii c in
  if (48 <=? n)%nat && (n <=? 57)%nat then Some (n - 48)%nat
  else if (65 <=? n)%nat && (n <=? 70)%nat then Some (n - 55)%nat
  else if (97 <=? n)%nat && (n <=? 102)%nat then Some (n - 87)%nat
  else None.

(** The four hexadecimal digits after a backslash and [u]; code units above
    255 do not fit an 8-bit character and are refused. *)
Definition scan_unicode (s : string) : option (ascii * string) :=
  match s with
  | String a (String b (String c (String d rest))) =>
      match hex_of a, hex_of b, hex_of c, hex_of d with
      | Some x, Some y, Some z, Some w =>
          if ((x =? 0) && (y =? 0))%nat then Some (ascii_of_nat (16 * z + w), rest)
          else None
      | _, _, _, _ => None
      end
  | _ => None
  end.

(** The characters of a string literal, after its opening quote, up to and
    including its closing quote. *)
Fixpoint scan_string (fuel : nat) (s : string) : option (string * string) :=
  match fuel with
  | O => None
  | S fuel' =>
      match s with
      | EmptyString => None
      | String c rest =>
          if (nat_of_ascii c =? 34)%nat then Some (EmptyString, rest)
          else if (nat_of_ascii c <? 32)%nat then None
          else if (nat_of_ascii c =? 92)%nat then
            match rest with
            | EmptyString => None
            | String e rest' =>
                let plain (ch : nat) :=
                  match scan_string fuel' rest' with
                  | Some (text, after) => Some (String (ascii_of_nat ch) text, after)
                  | None => None
                  end in
                if (nat_of_ascii e =? 34)%nat then plain 34%nat
                else if (nat_of_ascii e =? 92)%nat then plain 92%nat
                else if Ascii.eqb e "/" then plain 47%nat
                else if Ascii.eqb e "b" then plain 8%nat
                else if Ascii.eqb e "f" then plain 12%nat
                else if Ascii.eqb e "n" then plain 10%nat
                else if Ascii.eqb e "r" then plain 13%nat
                else if Ascii.eqb e "t" then plain 9%nat
                else if Ascii.eqb e "u" then
                    match scan_unicode rest' with
                    | Some (ch, after_code) =>
                        match scan_string fuel' after_code with
                        | Some (text, after) => Some (String ch text, after)
                        | None => None
                        end
                    | None => None
                    end
                else None
            end
          else
            match scan_string fuel' rest with
            | Some (text, after) => Some (String c text, after)
            | None => None
            end
      end
  end.

Definition scan_json_number (s : string) : option (value * string) :=
  let (negative, after_sign) := scan_sign false s in
  match scan_unsigned true after_sign with
  | Some (q, rest) => Some (VNum (Fin (if negative then Qred (- q) else q)), rest)
  | None => None
  end.

Definition scan_literal (word : string) (v : value) (s : string) : option (value * string) :=
  if prefix word s
  then Some (v, substring (String.length word) (String.length s - String.length word) s)
  else None.

(** A JSON value at the head of [s], white space skipped. A repeated key
    keeps its first place and takes its last value. *)
Fixpoint scan_value (fuel : nat) (s : string) : option (value * string) :=
  match fuel with
  | O => None
  | S fuel' =>
      match skip_ws s with
      | EmptyString => None
      | String c rest =>
          if Ascii.eqb c "{" then
              match skip_ws rest with
              | String "}" after => Some (VObj [], after)
              | members =>
                  (fix scan_members (n : nat) (acc : list (string * value)) (s : string)
                     {struct n} : option (value * string) :=
                     match n with
                     | O => None
                     | S n' =>
                         match skip_ws s with
                         | String q after_quote =>
                             if (nat_of_ascii q =? 34)%nat then
                               match scan_string fuel' after_quote with
                               | Some (key, after_key) =>
                                   match skip_ws after_key with
                                   | String ":" after_colon =>
                                       match scan_value fuel' after_colon with
                                       | Some (v, after_value) =>
                                           let acc' := assign key v acc in
                                           match skip_ws after_value with
                                           | String "," more => scan_members n' acc' more
                                           | String "}" after => Some (VObj acc', after)
                                           | _ => None
                                           end
                                       | None => None
                                       end
                                   | _ => None
                                   end
                               | None => None
                               end
                             else None
                         | EmptyString => None
                         end
                     end) fuel' [] members
              end
          else if Ascii.eqb c "[" then
              match skip_ws rest with
              | String "]" after => Some (VArr [], after)
              | items =>
                  (fix scan_items (n : nat) (acc : list value) (s : string)
                     {struct n} : option (value * string) :=
                     match n with
                     | O => None
                     | S n' =>
                         match scan_value fuel' s with
                         | Some (v, after_value) =>
                             match skip_ws after_value with
                             | String "," more => scan_items n' (acc ++ [v])%list more
                             | String "]" after => Some (VArr (acc ++ [v])%list, after)
                             | _ => None
                             end
                         | None => None
                         end
                     end) fuel' [] items
              end
          else if (nat_of_ascii c =? 34)%nat then
              match scan_string fuel' rest with
              | Some (text, after) => Some (VStr text, after)
              | None => None
              end
          else if Ascii.eqb c "t" then scan_literal "true" (VBool true) (String c rest)
          else if Ascii.eqb c "f" then scan_literal "false" (VBool false) (String c rest)
          else if Ascii.eqb c "n" then scan_literal "null" VNull (String c rest)
          else scan_json_number (String c rest)
      end
  end.

Definition JSON_parse (s : string) : option value :=
  match scan_value (S (String.length s)) s with
  | Some (v, rest) =>
      match skip_ws rest with
      | EmptyString => Some v
      | _ => None
      end
  | None => None
  end.

End Reference.

#[global] Instance reference_platform : Platform := {|
  StringToNumber := Reference.StringToNumber;
  NumberToString := Reference.NumberToString;
  parseFloat := Reference.parseFloat;
  JSON_parse := Reference.JSON_parse;
  timeString := Reference.timeString
|}.


(* ================================================================== *)
(** ** Definitions used to state the properties *)

(** Reading a field of a payload. *)
Definition field (key : string) (payload : value) : value :=
  match payload with
  | VObj fields => prop key fields
  | _ => VUndefined
  end.

(** The provider answered [completion], whose
    [choices[0].message.content] is the string [text]. *)
Definition completion_text (completion : value) (text : string) : Prop :=
  message_content completion = Ret (VStr text).

(** A completion object that carries the content [text]. *)
Definition completion_with (text : value) : value :=
  VObj [("choices", VArr [VObj [("message", VObj [("role", VStr "assistant");
                                                  ("content", text)])]])].

(** A world whose provider answers every request with [text]. *)
Definition world_answering (text : string) (draw : Q) (clock : Z) : world :=
  {| provider := fun _ => Resolved (completion_with (VStr text));
     random := draw;
     now := clock |}.

Definition replied (code : Z) (payload : value) : response + error :=
  inl {| status := code; body := payload |}.

Definition invalid_glucose : response + error :=
  replied 400 (VObj [("error", VStr "Invalid glucose value")]).

Definition history_required : response + error :=
  replied 400 (VObj [("error", VStr "Glucose history is required")]).

Definition prediction_failed : response + error :=
  replied 500 (VObj [("error", VStr "Prediction failed")]).

Definition no_values : response + error :=
  replied 400 (VObj [("message", VStr "No values provided")]).

Definition summary_failed : response + error :=
  replied 500 (VObj [("message", VStr "Error generating summary")]).

(** The text a value is interpolated as, when its conversion succeeds. *)
Definition shown_as {P : Platform} (v : value) : string :=
  match ToString v with
  | Ret s => s
  | _ => ""
  end.

(** In the words of the spec, a number-like value: a number other than
    [NaN], or a string that reads as one. *)
Definition number_like {P : Platform} (v : value) : bool :=
  match v with
  | VNum n => negb (is_nan n)
  | VStr s => negb (is_nan (StringToNumber s))
  | _ => false
  end.

(** The integer [Math.floor(draw * 10 - 5)]. *)
Definition drawn_offset (draw : Q) : Z :=
  Qfloor (Qred (Qred (draw * 10) + Qred (- (5)))).

(** The text handed to [JSON.parse] when the content is the string [text]:
    from its first opening brace to its last closing brace. *)
Definition json_slice (text : string) : string :=
  slice text (indexOf text "{") (lastIndexOf text "}" + 1).

(** The input of /predict as its contract types it: a history of readings,
    an insulin type and an activity that may be missing, a dose and a
    number of calories. *)
Record predict_input : Type := {
  history : list Q;
  insulin_type : option string;
  insulin_units : Q;
  calories_eaten : Q;
  activity_text : option string
}.

Definition optional_field (key : string) (text : option string) : list (string * value) :=
  match text with
  | Some s => [(key, VStr s)]
  | None => []
  end.

Definition optional_text (text : option string) : value :=
  match text with
  | Some s => VStr s
  | None => VUndefined
  end.

(** The JSON body that carries a typed input. *)
Definition body_of (i : predict_input) : list (string * value) :=
  ([("glucoseHistory", VArr (map (fun q => VNum (Fin q)) (history i)))]
     ++ optional_field "insulinType" (insulin_type i)
     ++ [("insulinUnits", VNum (Fin (insulin_units i)));
         ("calories", VNum (Fin (calories_eaten i)))]
     ++ optional_field "activity" (activity_text i))%list.

(** In the words of the spec (section 4.2): a text contains a lower-case
    word, letter case ignored. The text is read position by position. *)
Fixpoint prefix_ci (needle text : string) : bool :=
  match needle, text with
  | EmptyString, _ => true
  | String _ _, EmptyString => false
  | String a needle', String b text' =>
      Ascii.eqb a (lower_char b) && prefix_ci needle' text'
  end.

Fixpoint contains_ci (needle text : string) : bool :=
  prefix_ci needle text
  || match text with
     | EmptyString => false
     | String _ text' => contains_ci needle text'
     end.

Definition mentions (needle : string) (text : option string) : bool :=
  match text with
  | Some s => contains_ci needle s
  | None => false
  end.

(** The adjustment as the spec words it (section 4.2, steps 2 to 6). *)
Definition spec_adjustment (i : predict_input) : Q :=
  let adjustment := 0%Q in
  let adjustment :=
    if mentions "fast" (insulin_type i)
    then (adjustment - insulin_units i * 3)%Q else adjustment in
  let adjustment :=
    if mentions "long" (insulin_type i)
    then (adjustment - insulin_units i * (3 # 2))%Q else adjustment in
  let adjustment :=
    if Qlt_le_dec 400 (calories_eaten i) then (adjustment + 15)%Q else adjustment in
  let adjustment :=
    if mentions "walk" (activity_text i) || mentions "run" (activity_text i)
    then (adjustment - 10)%Q else adjustment in
  adjustment.

(** [clamp(x, lower, upper)] as the spec words it (step 8). *)
Definition clamp (x lower upper : Q) : Q :=
  if Qlt_le_dec x lower then lower
  else if Qlt_le_dec upper x then upper
  else x.

(** The baseline as the spec words it (steps 1, 7 and 8). *)
Definition spec_baseline (i : predict_input) : Q :=
  let latest := last (history i) 0%Q in
  let approxForecast := (latest + spec_adjustment i)%Q in
  clamp approxForecast 60 250.

(** The number [n] is the finite value [q]. *)
Definition number_is (n : number) (q : Q) : Prop :=
  match n with
  | Fin x => (x == q)%Q
  | _ => False
  end.

(** The closed interval of the clamp. *)
Definition within_bounds (n : number) : bool :=
  num_leb (Fin 60) n && num_leb n (Fin 250).

(** The risk categories and the threshold rule as the spec words them
    (section 3): below 100, above 150, otherwise stable. *)
Inductive RiskCategory : Type := HypoRisk | HyperRisk | Stable.

Definition derive_risk (forecast_mgdl : number) : RiskCategory :=
  if num_ltb forecast_mgdl (Fin 100) then HypoRisk
  else if num_gtb forecast_mgdl (Fin 150) then HyperRisk
  else Stable.

(** The spelling of a category in the answers of the handler. *)
Definition risk_label (r : RiskCategory) : string :=
  match r with
  | HypoRisk => "Hypo risk"
  | HyperRisk => "Hyper risk"
  | Stable => "Stable"
  end.

(** The single alert of a payload. *)
Definition the_alert (payload : value) : value :=
  nth 0 (items_of (field "alerts" payload)) VUndefined.


(** The second example of the spec: history [300], 2 units of long insulin,
    100 calories, sitting. *)
Definition clamped_example : predict_input :=
  {| history := [300%Q];
     insulin_type := Some "long";
     insulin_units := 2;
     calories_eaten := 100;
     activity_text := Some "sitting" |}.

(** An insulin type that mentions both words, in capitals. *)
Definition mixed_example : predict_input :=
  {| history := [110%Q; 140%Q];
     insulin_type := Some "FAST and Long";
     insulin_units := 2;
     calories_eaten := 400;
     activity_text := Some "Running" |}.

(** A request with a history and a fast insulin type, and no
    [insulinUnits]. *)
Definition units_missing : list (string * value) :=
  [("glucoseHistory", VArr [VNum (Fin 120)]); ("insulinType", VStr "fast")].

Definition one_reading : list (string * value) :=
  [("glucoseHistory", VArr [VNum (Fin 120)])].

(** A double quote, for writing JSON texts. *)
Definition dq : string := String (ascii_of_nat 34) EmptyString.

Definition quoted (s : string) : string := dq ++ s ++ dq.

(** An answer with commentary around a JSON object that has no
    [risk_type]. *)
Definition answer_without_risk : string :=
  "Sure: {" ++ quoted "forecast_mgdl" ++ ": 95, "
            ++ quoted "forecast_minutes" ++ ": 30} Stay safe.".


(** An answer in the format the prompt asks for. *)
Definition answer_complete : string :=
  "{" ++ quoted "forecast_mgdl" ++ ": 110, "
      ++ quoted "risk_type" ++ ": " ++ quoted "Stable" ++ ", "
      ++ quoted "forecast_minutes" ++ ": 30}".

(** 2023-11-14T22:13:20Z, in milliseconds. *)
Definition some_evening : Z := 1700000000000.

(** Line 116 when [forecast_mgdl] converts to the number [f]. *)
Definition substituted (b f : number) (parsed : list (string * value))
  : list (string * value) :=
  if is_nan f then assign "forecast_mgdl" (VNum b) parsed else parsed.

(** Lines 117 to 121 when the forecast kept is the number [f]. *)
Definition classified (f : number) (parsed : list (string * value))
  : list (string * value) :=
  if ToBoolean (prop "risk_type" parsed) then parsed
  else assign "risk_type" (VStr (risk_label (derive_risk f))) parsed.

(** The alert of lines 126 to 132 when [forecast_minutes] converts to the
    number [m]. *)
Definition alert_at {P : Platform} (clock : Z) (m : number)
           (parsed : list (string * value)) : value :=
  VArr [VObj [("risk", prop "risk_type" parsed);
              ("in_minutes", prop "forecast_minutes" parsed);
              ("time",
               VStr (slice (toTimeString
                              (TimeClip (num_add (num_of_Z clock)
                                                 (num_mul m (Fin 60000)))))
                           0 5))]].

(** A program without events: it returned or threw at once. *)
Definition quiet {A : Type} (p : prog A) : Prop :=
  match p with
  | Vis _ _ => False
  | _ => True
  end.

(** A program without events that returned, or threw a [TypeError]. *)
Definition plain {A : Type} (p : prog A) : Prop :=
  match p with
  | Ret _ => True
  | Throw TypeError => True
  | _ => False
  end.

Definition forecast_failed : response + error :=
  replied 500 (VObj [("error", VStr "Forecast failed")]).

(** [undefined] or [null]. *)
Definition nullish (v : value) : bool :=
  match v with
  | VUndefined | VNull => true
  | _ => false
  end.

(** A value on which [v?.toLowerCase()] does not throw. *)
Definition nullish_or_string (v : value) : bool :=
  match v with
  | VUndefined | VNull | VStr _ => true
  | _ => false
  end.

(** A world whose provider rejects every request. *)
Definition world_rejecting (message : string) : world :=
  {| provider := fun _ => Rejected (ProviderError message);
     random := 0;
     now := 0 |}.

Definition glucose_120 : list (string * value) :=
  [("currentGlucose", VNum (Fin 120))].

(** A request whose [insulinType] is a number. *)
Definition numeric_insulin_type : list (string * value) :=
  [("glucoseHistory", VArr [VNum (Fin 120)]); ("insulinType", VNum (Fin 5))].

(** A request whose last reading is the string "120". *)
Definition string_reading : list (string * value) :=
  [("glucoseHistory", VArr [VNum (Fin 100); VStr "120"])].

(** A request with a history and an [insulinUnits] that is no number, and
    nothing else. *)
Definition history_only : list (string * value) :=
  [("glucoseHistory", VArr [VNum (Fin 300)]); ("insulinUnits", VStr "many")].

(** An answer whose [forecast_mgdl] is not a number. *)
Definition answer_without_number : string :=
  "{" ++ quoted "forecast_mgdl" ++ ": " ++ quoted "n/a" ++ ", "
      ++ quoted "risk_type" ++ ": " ++ quoted "Stable" ++ ", "
      ++ quoted "forecast_minutes" ++ ": 30}".

(** An answer whose [risk_type] is none of the three of the prompt, beside
    a forecast of 50. *)
Definition answer_with_other_risk : string :=
  "{" ++ quoted "forecast_mgdl" ++ ": 50, "
      ++ quoted "risk_type" ++ ": " ++ quoted "Low" ++ ", "
      ++ quoted "forecast_minutes" ++ ": 30}".

(** The object of [answer_without_risk] without the commentary. *)
Definition object_without_risk : string :=
  "{" ++ quoted "forecast_mgdl" ++ ": 95, "
      ++ quoted "forecast_minutes" ++ ": 30}".

(* ================================================================== *)
(** ** Running programs *)

Lemma run_bind {A B : Type} (w : world) (p : prog A) (f : A -> prog B) :
  run w (bind p f) =
  match run w p with
  | (t, inl a) => let (t', r) := run w (f a) in (t ++ t', r)%list
  | (t, inr e) => (t, inr e)
  end.
Proof.
  induction p as [a | e | X ev k IH]; simpl.
  - destruct (run w (f a)); reflexivity.
  - reflexivity.
  - destruct (answer w ev) as [x o]. rewrite IH.
    destruct (run w (k x)) as [t [a | e]].
    + destruct (run w (f a)); reflexivity.
    + reflexivity.
Qed.

Lemma run_try_catch {A : Type} (w : world) (p : prog A) (h : error -> prog A) :
  run w (try_catch p h) =
  match run w p with
  | (t, inl a) => (t, inl a)
  | (t, inr e) => let (t', r) := run w (h e) in (t ++ t', r)%list
  end.
Proof.
  induction p as [a | e | X ev k IH]; simpl.
  - reflexivity.
  - destruct (run w (h e)); reflexivity.
  - destruct (answer w ev) as [x o]. rewrite IH.
    destruct (run w (k x)) as [t [a | e]].
    + reflexivity.
    + destruct (run w (h e)); reflexivity.
Qed.

Lemma run_await_create (w : world) (r : request) :
  run w (await_create r) =
  ([Called r], match provider w r with
               | Rejected e => inr e
               | Resolved completion => inl completion
               end).
Proof.
  unfold await_create, trigger. simpl.
  destruct (provider w r); reflexivity.
Qed.

Lemma quiet_bind {A B : Type} (p : prog A) (f : A -> prog B) :
  quiet p -> (forall a, quiet (f a)) -> quiet (bind p f).
Proof.
  destruct p as [a | e | X ev k]; simpl; intros Hp Hf.
  - apply Hf.
  - exact I.
  - contradiction.
Qed.

Lemma quiet_run {A : Type} (w : world) (p : prog A) :
  quiet p -> fst (run w p) = [].
Proof. destruct p; simpl; [reflexivity | reflexivity | contradiction]. Qed.

Lemma bind_Ret_inv {A B : Type} (p : prog A) (f : A -> prog B) (b : B) :
  bind p f = Ret b -> exists a, p = Ret a /\ f a = Ret b.
Proof.
  destruct p as [a | e | X ev k]; simpl; intros H.
  - exists a. split; [reflexivity | exact H].
  - discriminate H.
  - discriminate H.
Qed.

Lemma quiet_member (key : string) (v : value) : quiet (member key v).
Proof. destruct v; exact I. Qed.

Lemma quiet_first_item (v : value) : quiet (first_item v).
Proof. destruct v as [| | b | n | [| c s] | items | fields]; exact I. Qed.

(** Reading the content of a completion performs no event. *)
Lemma quiet_message_content (completion : value) : quiet (message_content completion).
Proof.
  unfold message_content.
  apply quiet_bind; [apply quiet_member | intros choices].
  apply quiet_bind; [apply quiet_first_item | intros choice].
  apply quiet_bind; [apply quiet_member | intros message].
  apply quiet_member.
Qed.

Lemma completion_with_text (text : string) :
  completion_text (completion_with (VStr text)) text.
Proof. reflexivity. Qed.

(* ================================================================== *)
(** ** Conversions *)

Section ConversionFacts.
Context {P : Platform}.

Lemma ToNumber_inv (v : value) (n : number) :
  ToNumber v = Ret n ->
  exists p, ToPrimitive v = Ret p /\ primitive_number p = n.
Proof.
  unfold ToNumber. intros H.
  destruct (bind_Ret_inv _ _ _ H) as [p [Hp Hn]].
  exists p. split; [exact Hp | congruence].
Qed.

(** A value that converts to a primitive prints. *)
Lemma ToPrimitive_ToString (v p : value) :
  ToPrimitive v = Ret p -> ToString v = Ret (shown_as v).
Proof.
  unfold shown_as.
  destruct v as [| | [|] | n | s | items | fields]; try reflexivity;
    unfold ToPrimitive; intros H;
    destruct (bind_Ret_inv _ _ _ H) as [s [Hs _]]; rewrite Hs; reflexivity.
Qed.

Lemma isNaN_inv (v : value) (b : bool) :
  isNaN v = Ret b -> exists n, ToNumber v = Ret n /\ is_nan n = b.
Proof.
  unfold isNaN. intros H.
  destruct (bind_Ret_inv _ _ _ H) as [n [Hn Hb]].
  exists n. split; [exact Hn | congruence].
Qed.

Lemma js_lt_number (v : value) (f n : number) :
  ToNumber v = Ret f -> js_lt v (VNum n) = Ret (num_ltb f n).
Proof.
  intros H. destruct (ToNumber_inv v f H) as [p [Hp Hf]].
  unfold js_lt. rewrite Hp. subst f. destruct p; reflexivity.
Qed.

Lemma js_gt_number (v : value) (f n : number) :
  ToNumber v = Ret f -> js_gt v (VNum n) = Ret (num_gtb f n).
Proof.
  intros H. destruct (ToNumber_inv v f H) as [p [Hp Hf]].
  unfold js_gt. rewrite Hp. subst f. destruct p; reflexivity.
Qed.

Lemma js_mul_number (v : value) (f n : number) :
  ToNumber v = Ret f -> js_mul v (VNum n) = Ret (num_mul f n).
Proof. intros H. unfold js_mul. rewrite H. reflexivity. Qed.


End ConversionFacts.

(* ================================================================== *)
(** ** Input validation *)

Section Validation.
Context {P : Platform}.

Lemma forecast_guard (reqbody : list (string * value)) (w : world) :
  invalid_glucose_value (prop "currentGlucose" reqbody) = Ret true ->
  run w (forecast_handler reqbody) = ([], invalid_glucose).
Proof.
  intros H. unfold forecast_handler. rewrite H. reflexivity.
Qed.

(** C7, as amended: a request to /forecast whose [currentGlucose] is absent,
    falsy, or coerces to [NaN] is answered 400 with an [error] field, and
    nothing else happens: the provider is not invoked. *)
Theorem forecast_rejects_absent_falsy_nan
        (reqbody : list (string * value)) (w : world) :
  lookup "currentGlucose" reqbody = None
  \/ ToBoolean (prop "currentGlucose" reqbody) = false
  \/ isNaN (prop "currentGlucose" reqbody) = Ret true ->
  run w (forecast_handler reqbody) = ([], invalid_glucose).
Proof.
  intros H. apply forecast_guard. unfold invalid_glucose_value, js_not, prop.
  destruct H as [H | [H | H]].
  - rewrite H. reflexivity.
  - unfold prop in H. rewrite H. reflexivity.
  - unfold prop in H.
    destruct (ToBoolean match lookup "currentGlucose" reqbody with
                        | Some v => v
                        | None => VUndefined
                        end); [exact H | reflexivity].
Qed.

(** C10: [currentGlucose] 0 is a number ([isNaN(0)] is false), and yet the
    forecast handler answers 400 with the invalid-glucose error without
    invoking the provider, as it does for every falsy value, among them the
    empty string and [false]. *)
Theorem forecast_rejects_zero (others : list (string * value)) (w : world) :
  isNaN (VNum (Fin 0)) = Ret false
  /\ run w (forecast_handler (("currentGlucose", VNum (Fin 0)) :: others))
     = ([], invalid_glucose)
  /\ run w (forecast_handler (("currentGlucose", VStr "") :: others))
     = ([], invalid_glucose)
  /\ run w (forecast_handler (("currentGlucose", VBool false) :: others))
     = ([], invalid_glucose).
Proof.
  split; [reflexivity |].
  repeat split; apply forecast_guard; reflexivity.
Qed.

(** C8: a request to /predict whose [glucoseHistory] is absent, is not an
    array, or is the empty array is answered 400, and the provider is never
    invoked. *)
Theorem predict_rejects_missing_history
        (reqbody : list (string * value)) (w : world) :
  lookup "glucoseHistory" reqbody = None
  \/ Array_isArray (prop "glucoseHistory" reqbody) = false
  \/ prop "glucoseHistory" reqbody = VArr [] ->
  run w (predict_handler reqbody) = ([], history_required)
  /\ provider_calls (fst (run w (predict_handler reqbody))) = [].
Proof.
  intros H.
  assert (G : history_missing (prop "glucoseHistory" reqbody) = true).
  { unfold history_missing. destruct H as [H | [H | H]].
    - unfold prop. rewrite H. reflexivity.
    - rewrite H. simpl. rewrite orb_true_r. reflexivity.
    - rewrite H. reflexivity. }
  unfold predict_handler. rewrite G. split; reflexivity.
Qed.

End Validation.

(** C7, witness: a body without [currentGlucose]. *)
Lemma forecast_rejects_absent_falsy_nan_witness :
  run (world_answering "105" 0 0) (forecast_handler []) = ([], invalid_glucose).
Proof.
  apply (forecast_rejects_absent_falsy_nan [] (world_answering "105" 0 0)).
  left. reflexivity.
Defined.

(** C7, as stated, fails: [true] is not number-like, and a request whose
    [currentGlucose] is [true] passes the validation ([!true] is false and
    [isNaN(true)] is false, [Number(true)] being 1); the provider is invoked
    and the answer is 200. *)
Lemma forecast_accepts_true :
  number_like (VBool true) = false
  /\ run (world_answering "105" 0 0)
         (forecast_handler [("currentGlucose", VBool true)])
     = ([Called (forecast_request "true")],
        replied 200 (VObj [("forecast", VNum (Fin 105))])).
Proof. split; reflexivity. Qed.

(** C8, witness: the empty history. *)
Lemma predict_rejects_missing_history_witness :
  run (world_answering "{}" 0 0) (predict_handler [("glucoseHistory", VArr [])])
  = ([], history_required)
  /\ provider_calls
       (fst (run (world_answering "{}" 0 0)
                 (predict_handler [("glucoseHistory", VArr [])]))) = [].
Proof.
  apply (predict_rejects_missing_history
           [("glucoseHistory", VArr [])] (world_answering "{}" 0 0)).
  right. right. reflexivity.
Defined.

(* ================================================================== *)
(** ** The forecast handler *)

Section Forecast.
Context {P : Platform}.

Lemma plausible_spec (f : number) :
  plausible f = true <-> exists q, f = Fin q /\ (40 < q /\ q < 400)%Q.
Proof.
  unfold plausible, num_gtb. split.
  - destruct f as [| | | q]; simpl; try discriminate.
    intros H. exists q. split; [reflexivity |].
    rewrite !Qlt_alt.
    destruct (40 ?= q)%Q; try discriminate.
    destruct (q ?= 400)%Q; try discriminate.
    split; reflexivity.
  - intros [q [-> [H1 H2]]]. simpl.
    rewrite Qlt_alt in H1, H2. rewrite H1, H2. reflexivity.
Qed.

(** What passing the validation of line 17 gives. *)
Lemma accepted_glucose (currentGlucose : value) :
  invalid_glucose_value currentGlucose = Ret false ->
  ToString currentGlucose = Ret (shown_as currentGlucose)
  /\ exists base, ToNumber currentGlucose = Ret base /\ is_nan base = false.
Proof.
  unfold invalid_glucose_value. intros H.
  destruct (js_not currentGlucose); [discriminate H |].
  destruct (isNaN_inv _ _ H) as [base [Hbase Hnan]].
  destruct (ToNumber_inv _ _ Hbase) as [p [Hp _]].
  split; [exact (ToPrimitive_ToString _ _ Hp) |].
  exists base. split; assumption.
Qed.

(** The handler once the validation passed and the provider answered
    [text]. *)
Lemma run_forecast_answered (reqbody : list (string * value)) (w : world)
      (base : number) (completion : value) (text : string) :
  invalid_glucose_value (prop "currentGlucose" reqbody) = Ret false ->
  ToNumber (prop "currentGlucose" reqbody) = Ret base ->
  provider w (forecast_request (shown_as (prop "currentGlucose" reqbody)))
  = Resolved completion ->
  completion_text completion text ->
  run w (forecast_handler reqbody) =
  if plausible (parseFloat (trim text))
  then ([Called (forecast_request (shown_as (prop "currentGlucose" reqbody)))],
        replied 200 (VObj [("forecast", VNum (parseFloat (trim text)))]))
  else ([Called (forecast_request (shown_as (prop "currentGlucose" reqbody))); Drew],
        replied 200
          (VObj [("forecast", VNum (num_add base (random_offset (random w))))])).
Proof.
  intros Hguard Hbase Hprov Htext.
  destruct (accepted_glucose _ Hguard) as [Hshown _].
  unfold forecast_handler. rewrite Hguard. cbn [bind]. rewrite Hshown. cbn [bind].
  rewrite run_try_catch, run_bind, run_await_create, Hprov.
  unfold completion_text in Htext. rewrite Htext. cbn [bind call_trim].
  destruct (plausible (parseFloat (trim text))).
  - reflexivity.
  - unfold fallbackForecast. rewrite Hbase. reflexivity.
Qed.

Lemma random_offset_drawn (draw : Q) : random_offset draw = num_of_Z (drawn_offset draw).
Proof. reflexivity. Qed.



(** C6: when the validation accepts [currentGlucose] and the text of the
    provider parses to a number strictly between 40 and 400, the forecast
    handler answers 200 with exactly that number; no random number is drawn. *)
Theorem forecast_returns_plausible_number
        (reqbody : list (string * value)) (w : world)
        (completion : value) (text : string) (q : Q) :
  invalid_glucose_value (prop "currentGlucose" reqbody) = Ret false ->
  provider w (forecast_request (shown_as (prop "currentGlucose" reqbody)))
  = Resolved completion ->
  completion_text completion text ->
  parseFloat (trim text) = Fin q ->
  (40 < q /\ q < 400)%Q ->
  run w (forecast_handler reqbody)
  = ([Called (forecast_request (shown_as (prop "currentGlucose" reqbody)))],
     replied 200 (VObj [("forecast", VNum (Fin q))])).
Proof.
  intros Hguard Hprov Htext Hparse Hq.
  destruct (accepted_glucose _ Hguard) as [_ [base [Hbase _]]].
  rewrite (run_forecast_answered reqbody w base completion text
             Hguard Hbase Hprov Htext).
  assert (Hp : plausible (parseFloat (trim text)) = true).
  { apply plausible_spec. exists q. split; assumption. }
  rewrite Hp, Hparse. reflexivity.
Qed.


End Forecast.


(** C6, witness: the provider answers 118.5 with a unit after it. *)
Lemma forecast_returns_plausible_number_witness :
  run (world_answering " 118.5 mg/dL" 0 0)
      (forecast_handler [("currentGlucose", VNum (Fin 120))])
  = ([Called (forecast_request "120")],
     replied 200 (VObj [("forecast", VNum (Fin (237 # 2)))])).
Proof.
  exact (forecast_returns_plausible_number
           [("currentGlucose", VNum (Fin 120))]
           (world_answering " 118.5 mg/dL" 0 0)
           (completion_with (VStr " 118.5 mg/dL")) " 118.5 mg/dL" (237 # 2)
           eq_refl eq_refl (completion_with_text " 118.5 mg/dL") eq_refl
           (conj eq_refl eq_refl)).
Defined.

(* ================================================================== *)
(** ** The summary handler *)

Section Summary.
Context {P : Platform}.

(** The handler on truthy [values]: one call, then the relay of the text or
    the generic failure. *)
Lemma run_summarize_truthy (reqbody : list (string * value)) (w : world) :
  ToBoolean (prop "values" reqbody) = true ->
  run w (summarize_handler reqbody) =
  match provider w (summarize_request (prop "values" reqbody)) with
  | Rejected e =>
      ([Called (summarize_request (prop "values" reqbody));
        Logged "Summary error:" e], summary_failed)
  | Resolved completion =>
      match run w (message_content completion) with
      | (_, inl (VStr text)) =>
          ([Called (summarize_request (prop "values" reqbody))],
           replied 200 (VObj [("summary", VStr (trim text))]))
      | (_, inl _) =>
          ([Called (summarize_request (prop "values" reqbody));
            Logged "Summary error:" TypeError], summary_failed)
      | (_, inr e) =>
          ([Called (summarize_request (prop "values" reqbody));
            Logged "Summary error:" e], summary_failed)
      end
  end.
Proof.
  intros Htruthy. unfold summarize_handler, js_not. rewrite Htruthy. simpl negb.
  cbv iota. rewrite run_try_catch, run_bind, run_await_create.
  destruct (provider w (summarize_request (prop "values" reqbody)))
    as [e | completion]; [reflexivity |].
  rewrite run_bind.
  pose proof (quiet_run w _ (quiet_message_content completion)) as Hquiet.
  destruct (run w (message_content completion)) as [t [content | e]];
    simpl in Hquiet; subst t; [| reflexivity].
  destruct content; reflexivity.
Qed.


Lemma object_is_truthy (fields : list (string * value)) :
  ToBoolean (VObj fields) = true.
Proof. reflexivity. Qed.

End Summary.



(* ================================================================== *)
(** ** The baseline of the predictive handler *)

Section Baseline.
Context {P : Platform}.

Lemma prefix_toLowerCase (needle text : string) :
  prefix needle (toLowerCase text) = prefix_ci needle text.
Proof.
  revert text. induction needle as [| a needle IH]; intros [| b text]; simpl;
    try reflexivity.
  destruct (ascii_dec a (lower_char b)) as [-> | Hneq].
  - rewrite Ascii.eqb_refl. apply IH.
  - apply Ascii.eqb_neq in Hneq. rewrite Hneq. reflexivity.
Qed.

Lemma indexOf_from_toLowerCase (needle text : string) (from : Z) :
  0 <= from ->
  (0 <=? indexOf_from from needle (toLowerCase text)) = contains_ci needle text.
Proof.
  revert from. induction text as [| c text IH]; intros from Hfrom.
  - simpl toLowerCase. unfold indexOf_from, contains_ci.
    rewrite <- (prefix_toLowerCase needle ""). simpl toLowerCase.
    destruct (prefix needle ""); simpl.
    + apply Z.leb_le. exact Hfrom.
    + reflexivity.
  - change (toLowerCase (String c text))
      with (String (lower_char c) (toLowerCase text)).
    change (indexOf_from from needle (String (lower_char c) (toLowerCase text)))
      with (if prefix needle (String (lower_char c) (toLowerCase text))
            then from
            else indexOf_from (from + 1) needle (toLowerCase text)).
    change (contains_ci needle (String c text))
      with (prefix_ci needle (String c text) || contains_ci needle text).
    rewrite <- (prefix_toLowerCase needle (String c text)).
    change (toLowerCase (String c text))
      with (String (lower_char c) (toLowerCase text)).
    destruct (prefix needle (String (lower_char c) (toLowerCase text))); simpl.
    + apply Z.leb_le. exact Hfrom.
    + apply IH. lia.
Qed.

(** What the code tests, [text.toLowerCase().includes(needle)], is the
    containment of the spec. *)
Lemma includes_toLowerCase (needle text : string) :
  includes (toLowerCase text) needle = contains_ci needle text.
Proof.
  unfold includes, indexOf. apply indexOf_from_toLowerCase. lia.
Qed.

Lemma optional_lower_includes_typed (text : option string) (needle : string) :
  optional_lower_includes (optional_text text) needle = Ret (mentions needle text).
Proof.
  destruct text as [s |]; simpl; [| reflexivity].
  rewrite includes_toLowerCase. reflexivity.
Qed.

Lemma number_is_add (n m : number) (q r : Q) :
  number_is n q -> number_is m r -> number_is (num_add n m) (q + r).
Proof.
  destruct n, m; cbn [number_is]; try contradiction.
  intros Hq Hr. cbn [num_add number_is]. rewrite Qred_correct, Hq, Hr. reflexivity.
Qed.

Lemma number_is_sub (n m : number) (q r : Q) :
  number_is n q -> number_is m r -> number_is (num_sub n m) (q - r).
Proof.
  destruct n, m; cbn [number_is]; try contradiction.
  intros Hq Hr. cbn [num_sub num_neg num_add number_is].
  rewrite !Qred_correct, Hq, Hr. reflexivity.
Qed.

Lemma number_is_mul (n m : number) (q r : Q) :
  number_is n q -> number_is m r -> number_is (num_mul n m) (q * r).
Proof.
  destruct n, m; cbn [number_is]; try contradiction.
  intros Hq Hr. cbn [num_mul number_is]. rewrite Qred_correct, Hq, Hr. reflexivity.
Qed.

Lemma number_is_Fin (q : Q) : number_is (Fin q) q.
Proof. cbn [number_is]. reflexivity. Qed.

Lemma num_ltb_Fin (x y : Q) :
  num_ltb (Fin x) (Fin y) = if Qlt_le_dec x y then true else false.
Proof.
  unfold num_ltb. destruct (Qlt_le_dec x y) as [Hlt | Hle].
  - rewrite Qlt_alt in Hlt. rewrite Hlt. reflexivity.
  - rewrite Qle_alt in Hle. rewrite <- Qcompare_antisym in Hle.
    destruct (x ?= y)%Q; try reflexivity. exfalso. apply Hle. reflexivity.
Qed.

Lemma body_of_fields (i : predict_input) :
  prop "glucoseHistory" (body_of i) = VArr (map (fun q => VNum (Fin q)) (history i))
  /\ prop "insulinType" (body_of i) = optional_text (insulin_type i)
  /\ prop "insulinUnits" (body_of i) = VNum (Fin (insulin_units i))
  /\ prop "calories" (body_of i) = VNum (Fin (calories_eaten i))
  /\ prop "activity" (body_of i) = optional_text (activity_text i).
Proof.
  destruct i as [h [it |] u c [act |]]; repeat split; reflexivity.
Qed.

Lemma last_readings (h : list Q) :
  h <> [] ->
  last (map (fun q => VNum (Fin q)) h) VUndefined = VNum (Fin (last h 0%Q)).
Proof.
  induction h as [| q h IH]; intros Hne; [contradiction |].
  destruct h as [| q' h]; [reflexivity |].
  change (last (map (fun q => VNum (Fin q)) (q :: q' :: h)) VUndefined)
    with (last (map (fun q => VNum (Fin q)) (q' :: h)) VUndefined).
  change (last (q :: q' :: h) 0%Q) with (last (q' :: h) 0%Q).
  apply IH. discriminate.
Qed.

Lemma adjustment_of_typed (i : predict_input) :
  exists adjustment,
    adjustment_of (optional_text (insulin_type i)) (VNum (Fin (insulin_units i)))
                  (VNum (Fin (calories_eaten i))) (optional_text (activity_text i))
    = Ret adjustment
    /\ number_is adjustment (spec_adjustment i).
Proof.
  destruct i as [h it u c act].
  unfold adjustment_of, spec_adjustment.
  cbn [insulin_type insulin_units calories_eaten activity_text].
  rewrite !optional_lower_includes_typed.
  unfold js_gt, js_mul, ToNumber.
  cbn [bind ToPrimitive primitive_number].
  rewrite num_ltb_Fin.
  destruct (mentions "fast" it), (mentions "long" it), (Qlt_le_dec 400 c),
    (mentions "walk" act);
    cbn [bind orb];
    try destruct (mentions "run" act);
    (eexists; split; [reflexivity |]);
    repeat first [ apply number_is_sub | apply number_is_add
                 | apply number_is_mul | apply number_is_Fin ].
Qed.

Lemma clamp_code (x : number) (a : Q) :
  number_is x a ->
  number_is (Math_max (Fin 60) (Math_min x (Fin 250))) (clamp a 60 250).
Proof.
  destruct x as [| | | x]; cbn [number_is]; try contradiction.
  intros Hx. unfold Math_min, Math_max, clamp. cbn [is_nan orb].
  rewrite num_ltb_Fin.
  destruct (Qlt_le_dec 250 x) as [H1 | H1]; cbn [is_nan orb];
    rewrite num_ltb_Fin;
    [destruct (Qlt_le_dec 60 250) as [H2 | H2]
    | destruct (Qlt_le_dec 60 x) as [H2 | H2]];
    destruct (Qlt_le_dec a 60) as [H3 | H3];
    try destruct (Qlt_le_dec 250 a) as [H4 | H4];
    cbn [number_is]; lra.
Qed.

Lemma clamp_bounds (x : Q) : (60 <= clamp x 60 250 /\ clamp x 60 250 <= 250)%Q.
Proof.
  unfold clamp.
  destruct (Qlt_le_dec x 60); [| destruct (Qlt_le_dec 250 x)]; lra.
Qed.

(** The lines 61 to 72 on a typed input. *)
Lemma typed_baseline (i : predict_input) :
  history i <> [] ->
  exists adjustment baseline,
    request_adjustment (body_of i) = Ret adjustment
    /\ number_is adjustment (spec_adjustment i)
    /\ request_baseline (body_of i) = Ret baseline
    /\ number_is baseline (spec_baseline i).
Proof.
  intros Hne.
  destruct (body_of_fields i) as [Hh [Hit [Hu [Hc Hact]]]].
  destruct (adjustment_of_typed i) as [adjustment [Hrun Hadj]].
  unfold request_baseline, request_adjustment.
  rewrite Hh, Hit, Hu, Hc, Hact, Hrun. cbn [bind].
  exists adjustment. eexists.
  split; [reflexivity |]. split; [exact Hadj |].
  unfold boundedForecast_of, spec_baseline. cbn [items_of].
  rewrite (last_readings (history i) Hne).
  unfold js_add, ToNumber. cbn [bind ToPrimitive primitive_number].
  split; [reflexivity |].
  apply clamp_code. apply number_is_add; [apply number_is_Fin | exact Hadj].
Qed.

(** The clamp does its work whenever the inputs are numbers: on a typed
    input the baseline lies between 60 and 250. *)
Lemma typed_baseline_within_bounds (i : predict_input) :
  history i <> [] ->
  exists q, request_baseline (body_of i) = Ret (Fin q) /\ (60 <= q /\ q <= 250)%Q.
Proof.
  intros Hne.
  destruct (typed_baseline i Hne) as [adjustment [baseline [_ [_ [Hrun Hb]]]]].
  destruct baseline as [| | | q]; cbn [number_is] in Hb; try contradiction.
  exists q. split; [exact Hrun |].
  rewrite Hb. apply clamp_bounds.
Qed.

(** The second example of the spec clamps 297 to 250. *)
Example baseline_of_clamped_example :
  request_adjustment (body_of clamped_example) = Ret (Fin (-3))
  /\ request_baseline (body_of clamped_example) = Ret (Fin 250).
Proof. split; reflexivity. Qed.

(** Both insulin rules apply to one text, and 400 calories add nothing:
    140 - 6 - 3 - 10. *)
Example baseline_of_mixed_example :
  request_adjustment (body_of mixed_example) = Ret (Fin (-19))
  /\ request_baseline (body_of mixed_example) = Ret (Fin 121).
Proof. split; reflexivity. Qed.


End Baseline.


(* ================================================================== *)
(** ** The predictive handler *)

Lemma prop_assign_same (key : string) (v : value) (fields : list (string * value)) :
  prop key (assign key v fields) = v.
Proof.
  unfold prop. induction fields as [| [k old] rest IH]; simpl.
  - rewrite String.eqb_refl. reflexivity.
  - destruct (String.eqb k key) eqn:E; simpl; rewrite E; [reflexivity | exact IH].
Qed.

Lemma prop_assign_other (key other : string) (v : value)
      (fields : list (string * value)) :
  String.eqb key other = false ->
  prop other (assign key v fields) = prop other fields.
Proof.
  intros Hneq. unfold prop. induction fields as [| [k old] rest IH]; simpl.
  - rewrite Hneq. reflexivity.
  - destruct (String.eqb k key) eqn:E; simpl.
    + apply String.eqb_eq in E. subst k. rewrite Hneq. reflexivity.
    + destruct (String.eqb k other); [reflexivity | exact IH].
Qed.

Section Predict.
Context {P : Platform}.

Lemma with_forecast_number (b f : number) (parsed : list (string * value)) :
  ToNumber (prop "forecast_mgdl" parsed) = Ret f ->
  with_forecast b parsed = Ret (substituted b f parsed).
Proof.
  intros H. unfold with_forecast, substituted, isNaN. rewrite H. cbn [bind].
  destruct (is_nan f); reflexivity.
Qed.

Lemma substituted_number (b f : number) (parsed : list (string * value)) :
  ToNumber (prop "forecast_mgdl" parsed) = Ret f ->
  ToNumber (prop "forecast_mgdl" (substituted b f parsed))
  = Ret (if is_nan f then b else f).
Proof.
  intros H. unfold substituted. destruct (is_nan f); [| exact H].
  rewrite prop_assign_same. reflexivity.
Qed.

Lemma with_risk_number (f : number) (parsed : list (string * value)) :
  ToNumber (prop "forecast_mgdl" parsed) = Ret f ->
  with_risk parsed = Ret (classified f parsed).
Proof.
  intros H. unfold with_risk, classified, js_not, derive_risk.
  destruct (ToBoolean (prop "risk_type" parsed)); cbn [negb]; [reflexivity |].
  rewrite (js_lt_number _ f _ H). cbn [bind].
  destruct (num_ltb f (Fin 100)); [reflexivity |].
  rewrite (js_gt_number _ f _ H). cbn [bind].
  destruct (num_gtb f (Fin 150)); reflexivity.
Qed.

Lemma substituted_keeps (b f : number) (key : string)
      (parsed : list (string * value)) :
  String.eqb "forecast_mgdl" key = false ->
  prop key (substituted b f parsed) = prop key parsed.
Proof.
  intros Hkey. unfold substituted. destruct (is_nan f); [| reflexivity].
  apply prop_assign_other. exact Hkey.
Qed.

Lemma classified_keeps (f : number) (key : string)
      (parsed : list (string * value)) :
  String.eqb "risk_type" key = false ->
  prop key (classified f parsed) = prop key parsed.
Proof.
  intros Hkey. unfold classified.
  destruct (ToBoolean (prop "risk_type" parsed)); [reflexivity |].
  apply prop_assign_other. exact Hkey.
Qed.

(** The [try] block when the content is a string. *)
Lemma extract_json_text (text : string) :
  extract_json (VStr text)
  = match JSON_parse (json_slice text) with
    | Some parsed => Ret parsed
    | None => Throw SyntaxError
    end.
Proof. reflexivity. Qed.

(** The [try] block on an answer whose slice parses to an object, when its
    [forecast_mgdl] and [forecast_minutes] convert to numbers. *)
Lemma run_predict_answer (w : world) (b : number) (completion : value)
      (text : string) (parsed : list (string * value)) (f m : number) :
  completion_text completion text ->
  JSON_parse (json_slice text) = Some (VObj parsed) ->
  ToNumber (prop "forecast_mgdl" parsed) = Ret f ->
  ToNumber (prop "forecast_minutes" parsed) = Ret m ->
  run w (predict_answer b completion)
  = ([ReadClock],
     replied 200
       (predict_payload b
          (alert_at (now w) m
                    (classified (if is_nan f then b else f) (substituted b f parsed)))
          (classified (if is_nan f then b else f) (substituted b f parsed)))).
Proof.
  intros Htext Hparse Hf Hm.
  unfold predict_answer. unfold completion_text in Htext. rewrite Htext.
  cbn [bind]. rewrite extract_json_text, Hparse. cbn [bind fields_of_parsed].
  rewrite (with_forecast_number b f parsed Hf). cbn [bind].
  rewrite (with_risk_number _ _ (substituted_number b f parsed Hf)). cbn [bind].
  unfold trigger. cbn [bind run answer]. unfold alertList_of.
  rewrite (js_mul_number _ m).
  - reflexivity.
  - rewrite classified_keeps by reflexivity.
    rewrite substituted_keeps by reflexivity. exact Hm.
Qed.

(** The handler around the [try] block. *)
Lemma run_predict_handler (reqbody : list (string * value)) (w : world)
      (b : number) (p : prompt) (completion : value) :
  history_missing (prop "glucoseHistory" reqbody) = false ->
  request_baseline reqbody = Ret b ->
  request_prompt reqbody = Ret p ->
  provider w (predict_request p) = Resolved completion ->
  run w (predict_handler reqbody)
  = match run w (predict_answer b completion) with
    | (t, inl r) => (Called (predict_request p) :: t, inl r)
    | (t, inr e) =>
        (Called (predict_request p) :: t ++ [Logged "Prediction error:" e],
         prediction_failed)%list
    end.
Proof.
  intros Hguard Hbase Hprompt Hprov.
  unfold predict_handler. rewrite Hguard, Hbase. cbn [bind].
  rewrite Hprompt. cbn [bind].
  rewrite run_try_catch, run_bind, run_await_create, Hprov.
  destruct (run w (predict_answer b completion)) as [t [r | e]]; reflexivity.
Qed.

(** C2: whenever the object parsed from the answer of the provider has no
    [risk_type], and its [forecast_mgdl] and [forecast_minutes] convert to
    numbers, the predictive handler answers 200 and the category of its
    alert and of its main alert is derived from the [forecast_mgdl] it
    reports: Hypo risk below 100, Hyper risk above 150, Stable otherwise,
    100 and 150 included; 95 gives Hypo risk, 150 Stable, 151 Hyper risk. *)
Theorem predict_derives_missing_risk :
  (forall (reqbody : list (string * value)) (w : world) (b : number) (p : prompt)
          (completion : value) (text : string)
          (parsed : list (string * value)) (f m : number),
      history_missing (prop "glucoseHistory" reqbody) = false ->
      request_baseline reqbody = Ret b ->
      request_prompt reqbody = Ret p ->
      provider w (predict_request p) = Resolved completion ->
      completion_text completion text ->
      JSON_parse (json_slice text) = Some (VObj parsed) ->
      lookup "risk_type" parsed = None ->
      ToNumber (prop "forecast_mgdl" parsed) = Ret f ->
      ToNumber (prop "forecast_minutes" parsed) = Ret m ->
      exists (payload : value) (reported : number),
        run w (predict_handler reqbody)
        = ([Called (predict_request p); ReadClock], replied 200 payload)
        /\ ToNumber (field "forecast_mgdl" payload) = Ret reported
        /\ field "risk" (the_alert payload)
           = VStr (risk_label (derive_risk reported))
        /\ field "main_alert" payload
           = mainAlert_of (VStr (risk_label (derive_risk reported))))
  /\ (derive_risk (Fin 95) = HypoRisk
      /\ derive_risk (Fin 100) = Stable
      /\ derive_risk (Fin 150) = Stable
      /\ derive_risk (Fin 151) = HyperRisk)
  /\ (with_risk [("forecast_mgdl", VNum (Fin 95))]
      = Ret [("forecast_mgdl", VNum (Fin 95)); ("risk_type", VStr "Hypo risk")]
      /\ with_risk [("forecast_mgdl", VNum (Fin 150))]
         = Ret [("forecast_mgdl", VNum (Fin 150)); ("risk_type", VStr "Stable")]
      /\ with_risk [("forecast_mgdl", VNum (Fin 151))]
         = Ret [("forecast_mgdl", VNum (Fin 151)); ("risk_type", VStr "Hyper risk")]).
Proof.
  split; [| split; repeat split; reflexivity].
  intros reqbody w b p completion text parsed f m
         Hguard Hbase Hprompt Hprov Htext Hparse Hrisk Hf Hm.
  rewrite (run_predict_handler reqbody w b p completion Hguard Hbase Hprompt Hprov).
  rewrite (run_predict_answer w b completion text parsed f m Htext Hparse Hf Hm).
  eexists. exists (if is_nan f then b else f). split; [reflexivity |].
  assert (Hfalsy : ToBoolean (prop "risk_type" (substituted b f parsed)) = false).
  { rewrite substituted_keeps by reflexivity. unfold prop. rewrite Hrisk.
    reflexivity. }
  unfold predict_payload, the_alert, alert_at.
  cbn [field prop lookup String.eqb Ascii.eqb Bool.eqb items_of nth].
  fold (prop "forecast_mgdl"
             (classified (if is_nan f then b else f) (substituted b f parsed))).
  fold (prop "risk_type"
             (classified (if is_nan f then b else f) (substituted b f parsed))).
  rewrite classified_keeps by reflexivity.
  unfold classified. rewrite Hfalsy. rewrite prop_assign_same.
  split; [exact (substituted_number b f parsed Hf) |].
  split; reflexivity.
Qed.

(** [undefined * 3] is [NaN], and [NaN] goes through the adjustment, the sum
    and [Math.max(60, Math.min(_, 250))]. *)
Lemma baseline_without_units : request_baseline units_missing = Ret NaN.
Proof. reflexivity. Qed.

Lemma prompt_without_units :
  request_prompt units_missing
  = Ret (PredictPrompt (NumberToString (Fin 120)) "fast"
                       "undefined" "undefined" "undefined").
Proof. reflexivity. Qed.

(** C4, at the failing input: the request has a history and a fast insulin
    type but no [insulinUnits]; whenever the provider answers a text whose
    slice parses to an object with a [forecast_mgdl] and a
    [forecast_minutes] that convert to numbers, the response is 200 and its
    [baseline] is [NaN], outside [60, 250]. *)
Theorem predict_baseline_without_units (w : world) (completion : value)
        (text : string) (parsed : list (string * value)) (f m : number) :
  provider w (predict_request
                (PredictPrompt (NumberToString (Fin 120)) "fast"
                               "undefined" "undefined" "undefined"))
  = Resolved completion ->
  completion_text completion text ->
  JSON_parse (json_slice text) = Some (VObj parsed) ->
  ToNumber (prop "forecast_mgdl" parsed) = Ret f ->
  ToNumber (prop "forecast_minutes" parsed) = Ret m ->
  exists payload,
    run w (predict_handler units_missing)
    = ([Called (predict_request
                  (PredictPrompt (NumberToString (Fin 120)) "fast"
                                 "undefined" "undefined" "undefined"));
        ReadClock],
       replied 200 payload)
    /\ field "baseline" payload = VNum NaN
    /\ within_bounds NaN = false.
Proof.
  intros Hprov Htext Hparse Hf Hm.
  rewrite (run_predict_handler units_missing w NaN _ completion
             eq_refl baseline_without_units prompt_without_units Hprov).
  rewrite (run_predict_answer w NaN completion text parsed f m Htext Hparse Hf Hm).
  eexists. split; [reflexivity |]. split; reflexivity.
Qed.


End Predict.

(* ================================================================== *)
(** ** The predictive handler on the reference platform *)

(** C2, witness: the provider answers 95 without a category. *)
Lemma predict_derives_missing_risk_witness :
  exists (payload : value) (reported : number),
    run (world_answering answer_without_risk 0 some_evening)
        (predict_handler one_reading)
    = ([Called (predict_request
                  (PredictPrompt "120" "undefined" "undefined" "undefined"
                                 "undefined"));
        ReadClock],
       replied 200 payload)
    /\ ToNumber (field "forecast_mgdl" payload) = Ret reported
    /\ field "risk" (the_alert payload) = VStr (risk_label (derive_risk reported))
    /\ field "main_alert" payload
       = mainAlert_of (VStr (risk_label (derive_risk reported))).
Proof.
  exact (proj1 predict_derives_missing_risk one_reading
               (world_answering answer_without_risk 0 some_evening)
               (Fin 120)
               (PredictPrompt "120" "undefined" "undefined" "undefined" "undefined")
               (completion_with (VStr answer_without_risk))
               answer_without_risk
               [("forecast_mgdl", VNum (Fin 95)); ("forecast_minutes", VNum (Fin 30))]
               (Fin 95) (Fin 30)
               eq_refl eq_refl eq_refl eq_refl
               (completion_with_text answer_without_risk)
               eq_refl eq_refl eq_refl eq_refl).
Defined.

(** C4, witness: the failing input, answered in the format of the prompt. *)
Lemma predict_baseline_without_units_witness :
  exists payload,
    run (world_answering answer_complete 0 some_evening)
        (predict_handler units_missing)
    = ([Called (predict_request
                  (PredictPrompt "120" "fast" "undefined" "undefined" "undefined"));
        ReadClock],
       replied 200 payload)
    /\ field "baseline" payload = VNum NaN
    /\ within_bounds NaN = false.
Proof.
  exact (predict_baseline_without_units
           (world_answering answer_complete 0 some_evening)
           (completion_with (VStr answer_complete)) answer_complete
           [("forecast_mgdl", VNum (Fin 110)); ("risk_type", VStr "Stable");
            ("forecast_minutes", VNum (Fin 30))]
           (Fin 110) (Fin 30)
           eq_refl (completion_with_text answer_complete) eq_refl eq_refl eq_refl).
Defined.



(* ================================================================== *)
(** ** Programs without events

    The conversions and the steps around them perform no event: they
    return, or throw a [TypeError]. *)

Lemma plain_bind {A B : Type} (p : prog A) (f : A -> prog B) :
  plain p -> (forall a, plain (f a)) -> plain (bind p f).
Proof.
  destruct p as [a | e | X ev k]; simpl; intros Hp Hf.
  - apply Hf.
  - exact Hp.
  - contradiction.
Qed.

Lemma plain_cases {A : Type} (p : prog A) :
  plain p -> (exists a, p = Ret a) \/ p = Throw TypeError.
Proof.
  destruct p as [a | [| | m] | X ev k]; simpl; intros H; try contradiction.
  - left. exists a. reflexivity.
  - right. reflexivity.
Qed.

Lemma plain_quiet {A : Type} (p : prog A) : plain p -> quiet p.
Proof.
  destruct p as [a | [| | m] | X ev k]; simpl; intros H; exact H || exact I.
Qed.

Lemma quiet_cases {A : Type} (p : prog A) :
  quiet p -> (exists a, p = Ret a) \/ (exists e, p = Throw e).
Proof.
  destruct p as [a | e | X ev k]; simpl; intros H; try contradiction.
  - left. exists a. reflexivity.
  - right. exists e. reflexivity.
Qed.

Lemma bind_plain_throw {A B : Type} (p : prog A) (f : A -> prog B) :
  plain p -> (forall a, f a = Throw TypeError) -> bind p f = Throw TypeError.
Proof.
  intros Hp Hf.
  destruct (plain_cases p Hp) as [[a ->] | ->]; [apply Hf | reflexivity].
Qed.

Section Purity.
Context {P : Platform}.

Lemma plain_ToString : forall v : value, plain (ToString v).
Proof.
  fix IH 1. intros [| | [|] | n | s | items | fields]; try exact I.
  - simpl. induction items as [| x rest IHrest]; [exact I |].
    pose proof (IH x) as Hx. apply plain_bind.
    + destruct x; try exact I; exact Hx.
    + intros shown. destruct rest as [| y rest']; [exact I |].
      apply plain_bind; [exact IHrest | intros more; exact I].
  - simpl. destruct (lookup "toString" fields); exact I.
Qed.

Lemma plain_join (sep : string) (items : list value) : plain (join sep items).
Proof.
  induction items as [| x rest IH]; [exact I |].
  cbn [join]. apply plain_bind.
  - destruct x; try exact I; apply plain_ToString.
  - intros shown. destruct rest as [| y rest']; [exact I |].
    apply plain_bind; [exact IH | intros more; exact I].
Qed.

Lemma plain_ToPrimitive (v : value) : plain (ToPrimitive v).
Proof.
  destruct v; try exact I; unfold ToPrimitive;
    (apply plain_bind; [apply plain_ToString | intros s; exact I]).
Qed.

Lemma plain_ToNumber (v : value) : plain (ToNumber v).
Proof.
  unfold ToNumber. apply plain_bind; [apply plain_ToPrimitive | intros p; exact I].
Qed.

Lemma plain_isNaN (v : value) : plain (isNaN v).
Proof.
  unfold isNaN. apply plain_bind; [apply plain_ToNumber | intros n; exact I].
Qed.

Lemma plain_js_add (a b : value) : plain (js_add a b).
Proof.
  unfold js_add. apply plain_bind; [apply plain_ToPrimitive | intros pa].
  apply plain_bind; [apply plain_ToPrimitive | intros pb].
  destruct pa, pb; exact I.
Qed.

Lemma plain_js_mul (a b : value) : plain (js_mul a b).
Proof.
  unfold js_mul. apply plain_bind; [apply plain_ToNumber | intros na].
  apply plain_bind; [apply plain_ToNumber | intros nb]. exact I.
Qed.

Lemma plain_js_lt (a b : value) : plain (js_lt a b).
Proof.
  unfold js_lt. apply plain_bind; [apply plain_ToPrimitive | intros pa].
  apply plain_bind; [apply plain_ToPrimitive | intros pb].
  destruct pa, pb; exact I.
Qed.

Lemma plain_js_gt (a b : value) : plain (js_gt a b).
Proof.
  unfold js_gt. apply plain_bind; [apply plain_ToPrimitive | intros pa].
  apply plain_bind; [apply plain_ToPrimitive | intros pb].
  destruct pa, pb; exact I.
Qed.

Lemma plain_optional_lower_includes (v : value) (needle : string) :
  plain (optional_lower_includes v needle).
Proof. destruct v; exact I. Qed.

Lemma plain_invalid_glucose_value (v : value) : plain (invalid_glucose_value v).
Proof.
  unfold invalid_glucose_value. destruct (js_not v); [exact I | apply plain_isNaN].
Qed.

Lemma plain_adjustment_of (insulinType insulinUnits calories activity : value) :
  plain (adjustment_of insulinType insulinUnits calories activity).
Proof.
  unfold adjustment_of.
  apply plain_bind; [apply plain_optional_lower_includes | intros fast].
  apply plain_bind.
  { destruct fast; [| exact I].
    apply plain_bind; [apply plain_js_mul | intros dose; exact I]. }
  intros adjustment.
  apply plain_bind; [apply plain_optional_lower_includes | intros long].
  apply plain_bind.
  { destruct long; [| exact I].
    apply plain_bind; [apply plain_js_mul | intros dose; exact I]. }
  intros adjustment'.
  apply plain_bind; [apply plain_js_gt | intros heavy_meal].
  apply plain_bind; [apply plain_optional_lower_includes | intros walk].
  apply plain_bind.
  { destruct walk; [exact I | apply plain_optional_lower_includes]. }
  intros moving. exact I.
Qed.

Lemma plain_boundedForecast_of (glucoseHistory : value) (adjustment : number) :
  plain (boundedForecast_of glucoseHistory adjustment).
Proof.
  unfold boundedForecast_of.
  apply plain_bind; [apply plain_js_add | intros approxForecast].
  apply plain_bind; [apply plain_ToNumber | intros approx]. exact I.
Qed.

Lemma plain_request_baseline (reqbody : list (string * value)) :
  plain (request_baseline reqbody).
Proof.
  unfold request_baseline, request_adjustment.
  apply plain_bind; [apply plain_adjustment_of | intros adjustment].
  apply plain_boundedForecast_of.
Qed.

Lemma plain_request_prompt (reqbody : list (string * value)) :
  plain (request_prompt reqbody).
Proof.
  unfold request_prompt.
  apply plain_bind; [apply plain_join | intros readings].
  apply plain_bind; [apply plain_ToString | intros insulinType].
  apply plain_bind; [apply plain_ToString | intros insulinUnits].
  apply plain_bind; [apply plain_ToString | intros calories].
  apply plain_bind; [apply plain_ToString | intros activity].
  exact I.
Qed.

Lemma quiet_extract_json (text : value) : quiet (extract_json text).
Proof.
  unfold extract_json.
  apply quiet_bind; [destruct text; exact I | intros jsonStart].
  apply quiet_bind; [destruct text; exact I | intros jsonEnd].
  apply quiet_bind; [destruct text; exact I | intros jsonString].
  apply quiet_bind; [apply plain_quiet, plain_ToString | intros source].
  destruct (JSON_parse source); exact I.
Qed.

Lemma plain_fields_of_parsed (parsed : value) : plain (fields_of_parsed parsed).
Proof. destruct parsed; exact I. Qed.

Lemma plain_with_forecast (b : number) (parsed : list (string * value)) :
  plain (with_forecast b parsed).
Proof.
  unfold with_forecast. apply plain_bind; [apply plain_isNaN | intros missing].
  destruct missing; exact I.
Qed.

Lemma plain_with_risk (parsed : list (string * value)) : plain (with_risk parsed).
Proof.
  unfold with_risk. destruct (js_not (prop "risk_type" parsed)); [| exact I].
  apply plain_bind; [apply plain_js_lt | intros low].
  destruct low; [exact I |].
  apply plain_bind; [apply plain_js_gt | intros high].
  destruct high; exact I.
Qed.

Lemma plain_alertList_of (clock : Z) (parsed : list (string * value)) :
  plain (alertList_of clock parsed).
Proof.
  unfold alertList_of. apply plain_bind; [apply plain_js_mul | intros delay].
  exact I.
Qed.

End Purity.

(* ================================================================== *)
(** ** Every run of the forecast handler *)

Section ForecastOutcomes.
Context {P : Platform}.

(** The handler once the validation passed: everything after the call is
    inside the [try] block. *)
Lemma run_forecast_accepted (reqbody : list (string * value)) (w : world)
      (base : number) :
  invalid_glucose_value (prop "currentGlucose" reqbody) = Ret false ->
  ToNumber (prop "currentGlucose" reqbody) = Ret base ->
  run w (forecast_handler reqbody) =
  let r := forecast_request (shown_as (prop "currentGlucose" reqbody)) in
  match provider w r with
  | Rejected e => ([Called r; Logged "Forecast error:" e], forecast_failed)
  | Resolved completion =>
      match message_content completion with
      | Ret (VStr text) =>
          if plausible (parseFloat (trim text))
          then ([Called r],
                replied 200 (VObj [("forecast", VNum (parseFloat (trim text)))]))
          else ([Called r; Drew],
                replied 200
                  (VObj [("forecast",
                          VNum (num_add base (random_offset (random w))))]))
      | Ret _ => ([Called r; Logged "Forecast error:" TypeError], forecast_failed)
      | Throw e => ([Called r; Logged "Forecast error:" e], forecast_failed)
      | Vis _ _ => ([], inr TypeError)
      end
  end.
Proof.
  intros Hguard Hbase.
  destruct (accepted_glucose _ Hguard) as [Hshown _].
  unfold forecast_handler. rewrite Hguard. cbn [bind]. rewrite Hshown. cbn [bind].
  rewrite run_try_catch, run_bind, run_await_create. cbv zeta.
  destruct (provider w _) as [e | completion]; [reflexivity |].
  pose proof (quiet_message_content completion) as Hquiet.
  destruct (message_content completion) as [content | e | X ev k];
    [| reflexivity | contradiction].
  destruct content as [| | c | n | text | items | fields]; try reflexivity.
  cbn [bind call_trim].
  destruct (plausible (parseFloat (trim text))); [reflexivity |].
  unfold fallbackForecast. rewrite Hbase. reflexivity.
Qed.

Lemma fallback_is_number (base : number) (draw : Q) :
  is_nan base = false -> is_nan (num_add base (random_offset draw)) = false.
Proof.
  rewrite random_offset_drawn. destruct base; try discriminate; reflexivity.
Qed.

Lemma plausible_is_number (f : number) : plausible f = true -> is_nan f = false.
Proof. destruct f; try discriminate; reflexivity. Qed.

(** X1: every run of the forecast handler is one of four: the 400; a
    [TypeError] that escapes the validation before anything else happens;
    one call answered 200 with a number that is not [NaN], the number of
    the provider or, after one draw, the fallback; one call, one line of
    log and the generic 500. *)
Theorem forecast_outcomes (reqbody : list (string * value)) (w : world) :
  let r := forecast_request (shown_as (prop "currentGlucose" reqbody)) in
  run w (forecast_handler reqbody) = ([], invalid_glucose)
  \/ run w (forecast_handler reqbody) = ([], inr TypeError)
  \/ (exists n,
         is_nan n = false
         /\ (run w (forecast_handler reqbody)
             = ([Called r], replied 200 (VObj [("forecast", VNum n)]))
             \/ run w (forecast_handler reqbody)
                = ([Called r; Drew], replied 200 (VObj [("forecast", VNum n)]))))
  \/ (exists e,
         run w (forecast_handler reqbody)
         = ([Called r; Logged "Forecast error:" e], forecast_failed)).
Proof.
  intros r.
  destruct (plain_cases _ (plain_invalid_glucose_value
                             (prop "currentGlucose" reqbody)))
    as [[[|] Hguard] | Hthrow].
  - left. apply forecast_guard. exact Hguard.
  - right. right.
    destruct (accepted_glucose _ Hguard) as [_ [base [Hbase Hnan]]].
    rewrite (run_forecast_accepted reqbody w base Hguard Hbase). cbv zeta. fold r.
    destruct (provider w r) as [e | completion].
    { right. exists e. reflexivity. }
    pose proof (quiet_message_content completion) as Hquiet.
    destruct (message_content completion) as [content | e | X ev k];
      [| right; exists e; reflexivity | contradiction].
    destruct content as [| | c | n | text | items | fields];
      try (right; exists TypeError; reflexivity).
    left. destruct (plausible (parseFloat (trim text))) eqn:Hp.
    + exists (parseFloat (trim text)).
      split; [apply plausible_is_number, Hp |]. left. reflexivity.
    + exists (num_add base (random_offset (random w))).
      split; [apply fallback_is_number, Hnan |]. right. reflexivity.
  - right. left. unfold forecast_handler. rewrite Hthrow. reflexivity.
Qed.

(** X2: when the provider rejects the call, or answers something whose
    [choices[0].message.content] cannot be read or is not a string, the
    forecast handler logs the error and answers the generic 500; the error
    is not part of the response. *)
Theorem forecast_provider_failure (reqbody : list (string * value)) (w : world) :
  invalid_glucose_value (prop "currentGlucose" reqbody) = Ret false ->
  let r := forecast_request (shown_as (prop "currentGlucose" reqbody)) in
  (forall e, provider w r = Rejected e ->
     run w (forecast_handler reqbody)
     = ([Called r; Logged "Forecast error:" e], forecast_failed))
  /\ (forall completion e,
        provider w r = Resolved completion ->
        message_content completion = Throw e ->
        run w (forecast_handler reqbody)
        = ([Called r; Logged "Forecast error:" e], forecast_failed))
  /\ (forall completion content,
        provider w r = Resolved completion ->
        message_content completion = Ret content ->
        (forall text, content <> VStr text) ->
        run w (forecast_handler reqbody)
        = ([Called r; Logged "Forecast error:" TypeError], forecast_failed)).
Proof.
  intros Hguard r.
  destruct (accepted_glucose _ Hguard) as [_ [base [Hbase _]]].
  rewrite (run_forecast_accepted reqbody w base Hguard Hbase). cbv zeta. fold r.
  split; [| split].
  - intros e Hprov. rewrite Hprov. reflexivity.
  - intros completion e Hprov Hcontent. rewrite Hprov, Hcontent. reflexivity.
  - intros completion content Hprov Hcontent Hnot. rewrite Hprov, Hcontent.
    destruct content as [| | c | n | text | items | fields]; try reflexivity.
    exfalso. apply (Hnot text). reflexivity.
Qed.

(** X3: a [currentGlucose] that is an object with a [toString] field of
    its own makes [isNaN] throw on line 17, outside the [try] block: the
    handler sends no response and does not invoke the provider. *)
Theorem forecast_validation_throws
        (reqbody : list (string * value)) (w : world)
        (fields : list (string * value)) (own : value) :
  prop "currentGlucose" reqbody = VObj fields ->
  lookup "toString" fields = Some own ->
  run w (forecast_handler reqbody) = ([], inr TypeError).
Proof.
  intros Hobj Hown. unfold forecast_handler, invalid_glucose_value.
  rewrite Hobj. cbn. rewrite Hown. reflexivity.
Qed.

(** X4: the validation of line 17 knows no range: every number other
    than zero, negative or far beyond any glucose level, is accepted, and
    the provider is invoked once with it; the answer is then a 200 or the
    generic 500. *)
Theorem forecast_accepts_nonzero_numbers
        (reqbody : list (string * value)) (w : world) (q : Q) :
  prop "currentGlucose" reqbody = VNum (Fin q) ->
  ~ (q == 0)%Q ->
  provider_calls (fst (run w (forecast_handler reqbody)))
  = [forecast_request (NumberToString (Fin q))]
  /\ exists r,
      snd (run w (forecast_handler reqbody)) = inl r
      /\ (status r = 200 \/ status r = 500).
Proof.
  intros Hvalue Hnonzero.
  assert (Hguard : invalid_glucose_value (prop "currentGlucose" reqbody) = Ret false).
  { rewrite Hvalue. unfold invalid_glucose_value, js_not. cbn [ToBoolean].
    destruct (Qeq_bool q 0) eqn:E; [| reflexivity].
    exfalso. apply Hnonzero. apply Qeq_bool_eq. exact E. }
  assert (Hbase : ToNumber (prop "currentGlucose" reqbody) = Ret (Fin q))
    by (rewrite Hvalue; reflexivity).
  rewrite (run_forecast_accepted reqbody w (Fin q) Hguard Hbase). cbv zeta.
  rewrite Hvalue.
  change (shown_as (VNum (Fin q))) with (NumberToString (Fin q)).
  destruct (provider w _) as [e | completion].
  { split; [reflexivity |]. eexists. split; [reflexivity | right; reflexivity]. }
  pose proof (quiet_message_content completion) as Hquiet.
  destruct (message_content completion) as [content | e | X ev k];
    [| split; [reflexivity |]; eexists; split; [reflexivity | right; reflexivity]
     | contradiction].
  destruct content as [| | c | n | text | items | fields];
    try (split; [reflexivity |]; eexists; split; [reflexivity | right; reflexivity]).
  destruct (plausible (parseFloat (trim text)));
    (split; [reflexivity |]; eexists; split; [reflexivity | left; reflexivity]).
Qed.

End ForecastOutcomes.

(** X2, witness: the provider rejects the call, and then answers [null]
    as content. *)
Lemma forecast_provider_failure_witness :
  run (world_rejecting "timeout") (forecast_handler glucose_120)
  = ([Called (forecast_request "120");
      Logged "Forecast error:" (ProviderError "timeout")],
     forecast_failed)
  /\ run {| provider := fun _ => Resolved (completion_with VNull);
            random := 0; now := 0 |}
         (forecast_handler glucose_120)
     = ([Called (forecast_request "120"); Logged "Forecast error:" TypeError],
        forecast_failed).
Proof.
  split.
  - exact (proj1 (forecast_provider_failure
                    glucose_120 (world_rejecting "timeout") eq_refl)
                 (ProviderError "timeout") eq_refl).
  - assert (Hnot : forall text, VNull <> VStr text) by (intros text; discriminate).
    exact (proj2 (proj2 (forecast_provider_failure
                           glucose_120
                           {| provider := fun _ => Resolved (completion_with VNull);
                              random := 0; now := 0 |}
                           eq_refl))
                 (completion_with VNull) VNull eq_refl eq_refl Hnot).
Defined.

(** X3, witness: [currentGlucose] is [{"toString": null}]. *)
Lemma forecast_validation_throws_witness :
  run (world_answering "118" 0 0)
      (forecast_handler [("currentGlucose", VObj [("toString", VNull)])])
  = ([], inr TypeError).
Proof.
  exact (forecast_validation_throws
           [("currentGlucose", VObj [("toString", VNull)])]
           (world_answering "118" 0 0)
           [("toString", VNull)] VNull eq_refl eq_refl).
Defined.

(** X4, witness: a glucose level of -5. *)
Lemma forecast_accepts_nonzero_numbers_witness :
  provider_calls (fst (run (world_answering "118" 0 0)
                           (forecast_handler [("currentGlucose", VNum (Fin (-5)))])))
  = [forecast_request "-5"]
  /\ exists r,
      snd (run (world_answering "118" 0 0)
               (forecast_handler [("currentGlucose", VNum (Fin (-5)))]))
      = inl r
      /\ (status r = 200 \/ status r = 500).
Proof.
  assert (Hnonzero : ~ (-5 == 0)%Q) by discriminate.
  exact (forecast_accepts_nonzero_numbers
           [("currentGlucose", VNum (Fin (-5)))] (world_answering "118" 0 0)
           (-5)%Q eq_refl Hnonzero).
Defined.

(* ================================================================== *)
(** ** Every run of the summary handler *)

Section SummaryOutcomes.
Context {P : Platform}.

(** X5: every run of the summary handler ends with a response: the 400
    without a call, the trimmed text after one call, or one call, one line
    of log and the generic 500. No error escapes. *)
Theorem summarize_outcomes (reqbody : list (string * value)) (w : world) :
  let r := summarize_request (prop "values" reqbody) in
  run w (summarize_handler reqbody) = ([], no_values)
  \/ (exists text,
         run w (summarize_handler reqbody)
         = ([Called r], replied 200 (VObj [("summary", VStr (trim text))])))
  \/ (exists e,
         run w (summarize_handler reqbody)
         = ([Called r; Logged "Summary error:" e], summary_failed)).
Proof.
  intros r. destruct (ToBoolean (prop "values" reqbody)) eqn:Htruthy.
  - right. rewrite (run_summarize_truthy reqbody w Htruthy). fold r.
    destruct (provider w r) as [e | completion].
    { right. exists e. reflexivity. }
    destruct (run w (message_content completion)) as [t [content | e]].
    + destruct content as [| | c | n | text | items | fields];
        try (right; exists TypeError; reflexivity).
      left. exists text. reflexivity.
    + right. exists e. reflexivity.
  - left. unfold summarize_handler, js_not. rewrite Htruthy. reflexivity.
Qed.

(** X6: when the provider rejects the call, or answers something whose
    [choices[0].message.content] cannot be read or is not a string, the
    summary handler logs the error and answers the generic 500. *)
Theorem summarize_provider_failure (reqbody : list (string * value)) (w : world) :
  ToBoolean (prop "values" reqbody) = true ->
  let r := summarize_request (prop "values" reqbody) in
  (forall e, provider w r = Rejected e ->
     run w (summarize_handler reqbody)
     = ([Called r; Logged "Summary error:" e], summary_failed))
  /\ (forall completion e,
        provider w r = Resolved completion ->
        message_content completion = Throw e ->
        run w (summarize_handler reqbody)
        = ([Called r; Logged "Summary error:" e], summary_failed))
  /\ (forall completion content,
        provider w r = Resolved completion ->
        message_content completion = Ret content ->
        (forall text, content <> VStr text) ->
        run w (summarize_handler reqbody)
        = ([Called r; Logged "Summary error:" TypeError], summary_failed)).
Proof.
  intros Htruthy r.
  rewrite (run_summarize_truthy reqbody w Htruthy). fold r.
  split; [| split].
  - intros e Hprov. rewrite Hprov. reflexivity.
  - intros completion e Hprov Hcontent. rewrite Hprov, Hcontent. reflexivity.
  - intros completion content Hprov Hcontent Hnot. rewrite Hprov, Hcontent.
    destruct content as [| | c | n | text | items | fields]; try reflexivity.
    exfalso. apply (Hnot text). reflexivity.
Qed.

End SummaryOutcomes.

(** X6, witness: the provider rejects the call, and then answers a
    completion without choices. *)
Lemma summarize_provider_failure_witness :
  run (world_rejecting "timeout") (summarize_handler [("values", VObj [])])
  = ([Called (summarize_request (VObj []));
      Logged "Summary error:" (ProviderError "timeout")],
     summary_failed)
  /\ run {| provider := fun _ => Resolved (VObj [("choices", VArr [])]);
            random := 0; now := 0 |}
         (summarize_handler [("values", VObj [])])
     = ([Called (summarize_request (VObj [])); Logged "Summary error:" TypeError],
        summary_failed).
Proof.
  split.
  - exact (proj1 (summarize_provider_failure
                    [("values", VObj [])] (world_rejecting "timeout") eq_refl)
                 (ProviderError "timeout") eq_refl).
  - exact (proj1 (proj2 (summarize_provider_failure
                           [("values", VObj [])]
                           {| provider := fun _ => Resolved (VObj [("choices", VArr [])]);
                              random := 0; now := 0 |}
                           eq_refl))
                 (VObj [("choices", VArr [])]) TypeError eq_refl eq_refl).
Defined.

(* ================================================================== *)
(** ** Braces in the answer of the provider *)

Lemma prefix_char (ch : ascii) (hay : string) :
  prefix (String ch "") hay
  = match hay with
    | String c _ => Ascii.eqb ch c
    | EmptyString => false
    end.
Proof.
  destruct hay as [| c rest]; [reflexivity |]. simpl.
  destruct (ascii_dec ch c) as [-> | Hneq].
  - rewrite Ascii.eqb_refl. destruct rest; reflexivity.
  - apply Ascii.eqb_neq in Hneq. rewrite Hneq. reflexivity.
Qed.

Lemma indexOf_from_sign (needle hay : string) (from from' : Z) :
  0 <= from -> 0 <= from' ->
  (0 <=? indexOf_from from needle hay) = (0 <=? indexOf_from from' needle hay).
Proof.
  revert from from'. induction hay as [| c rest IH]; intros from from' H H'.
  - unfold indexOf_from. destruct (prefix needle ""); [| reflexivity].
    transitivity true; [| symmetry]; apply Z.leb_le; assumption.
  - change (indexOf_from from needle (String c rest))
      with (if prefix needle (String c rest) then from
            else indexOf_from (from + 1) needle rest).
    change (indexOf_from from' needle (String c rest))
      with (if prefix needle (String c rest) then from'
            else indexOf_from (from' + 1) needle rest).
    destruct (prefix needle (String c rest)).
    + transitivity true; [| symmetry]; apply Z.leb_le; assumption.
    + apply IH; lia.
Qed.

Lemma includes_cons (c : ascii) (rest needle : string) :
  includes (String c rest) needle
  = prefix needle (String c rest) || includes rest needle.
Proof.
  unfold includes, indexOf.
  change (indexOf_from 0 needle (String c rest))
    with (if prefix needle (String c rest) then 0
          else indexOf_from (0 + 1) needle rest).
  destruct (prefix needle (String c rest)); [reflexivity |].
  apply indexOf_from_sign; lia.
Qed.

(** Without an occurrence, [indexOf] is -1 and [lastIndexOf] keeps what it
    had found. *)
Lemma indexOf_from_absent (needle hay : string) (from : Z) :
  0 <= from -> includes hay needle = false -> indexOf_from from needle hay = -1.
Proof.
  revert from. induction hay as [| c rest IH]; intros from Hfrom Habsent.
  - unfold includes, indexOf, indexOf_from in *.
    destruct (prefix needle ""); [discriminate Habsent | reflexivity].
  - rewrite includes_cons in Habsent. apply orb_false_iff in Habsent.
    destruct Habsent as [Hhead Htail].
    change (indexOf_from from needle (String c rest))
      with (if prefix needle (String c rest) then from
            else indexOf_from (from + 1) needle rest).
    rewrite Hhead. apply IH; [lia | exact Htail].
Qed.

Lemma lastIndexOf_from_absent (needle hay : string) (from found : Z) :
  includes hay needle = false -> lastIndexOf_from from found needle hay = found.
Proof.
  revert from found. induction hay as [| c rest IH]; intros from found Habsent.
  - destruct needle; [discriminate Habsent | reflexivity].
  - rewrite includes_cons in Habsent. apply orb_false_iff in Habsent.
    destruct Habsent as [Hhead Htail].
    change (lastIndexOf_from from found needle (String c rest))
      with (lastIndexOf_from (from + 1)
              (if prefix needle (String c rest) then from else found) needle rest).
    rewrite Hhead. apply IH. exact Htail.
Qed.

Lemma indexOf_from_first (ch : ascii) (pre rest : string) (from : Z) :
  0 <= from ->
  includes pre (String ch "") = false ->
  indexOf_from from (String ch "") (pre ++ String ch rest)
  = from + Z.of_nat (String.length pre).
Proof.
  revert from. induction pre as [| c pre IH]; intros from Hfrom Habsent.
  - change ("" ++ String ch rest) with (String ch rest).
    change (indexOf_from from (String ch "") (String ch rest))
      with (if prefix (String ch "") (String ch rest) then from
            else indexOf_from (from + 1) (String ch "") rest).
    rewrite prefix_char, Ascii.eqb_refl. simpl. lia.
  - rewrite includes_cons in Habsent. apply orb_false_iff in Habsent.
    destruct Habsent as [Hhead Htail].
    change (String c pre ++ String ch rest) with (String c (pre ++ String ch rest)).
    change (indexOf_from from (String ch "") (String c (pre ++ String ch rest)))
      with (if prefix (String ch "") (String c (pre ++ String ch rest)) then from
            else indexOf_from (from + 1) (String ch "") (pre ++ String ch rest)).
    rewrite prefix_char in Hhead. rewrite prefix_char, Hhead.
    rewrite IH by (lia || assumption).
    change (String.length (String c pre)) with (S (String.length pre)). lia.
Qed.

Lemma lastIndexOf_from_last (ch : ascii) (pre post : string) (from found : Z) :
  includes post (String ch "") = false ->
  lastIndexOf_from from found (String ch "") (pre ++ String ch post)
  = from + Z.of_nat (String.length pre).
Proof.
  revert from found. induction pre as [| c pre IH]; intros from found Habsent.
  - change ("" ++ String ch post) with (String ch post).
    change (lastIndexOf_from from found (String ch "") (String ch post))
      with (lastIndexOf_from (from + 1)
              (if prefix (String ch "") (String ch post) then from else found)
              (String ch "") post).
    rewrite prefix_char, Ascii.eqb_refl.
    rewrite lastIndexOf_from_absent by exact Habsent. simpl. lia.
  - change (String c pre ++ String ch post) with (String c (pre ++ String ch post)).
    change (lastIndexOf_from from found (String ch "")
                             (String c (pre ++ String ch post)))
      with (lastIndexOf_from (from + 1)
              (if prefix (String ch "") (String c (pre ++ String ch post))
               then from else found)
              (String ch "") (pre ++ String ch post)).
    rewrite IH by exact Habsent.
    change (String.length (String c pre)) with (S (String.length pre)). lia.
Qed.

(** What [lastIndexOf] of a character returns: nothing found, or the place
    of an occurrence after which there is none. *)
Lemma lastIndexOf_from_cases (ch : ascii) (hay : string) (from found : Z) :
  (includes hay (String ch "") = false
   /\ lastIndexOf_from from found (String ch "") hay = found)
  \/ (exists pre post,
         hay = pre ++ String ch post
         /\ includes post (String ch "") = false
         /\ lastIndexOf_from from found (String ch "") hay
            = from + Z.of_nat (String.length pre)).
Proof.
  destruct (includes hay (String ch "")) eqn:Hin.
  - right. revert from found Hin.
    induction hay as [| c rest IH]; intros from found Hin; [discriminate Hin |].
    rewrite includes_cons, prefix_char in Hin.
    destruct (includes rest (String ch "")) eqn:Hrest.
    + destruct (IH (from + 1)
                   (if prefix (String ch "") (String c rest) then from else found)
                   eq_refl) as [pre [post [Heq [Hpost Hidx]]]].
      exists (String c pre), post. split; [| split].
      * rewrite Heq. reflexivity.
      * exact Hpost.
      * change (lastIndexOf_from from found (String ch "") (String c rest))
          with (lastIndexOf_from (from + 1)
                  (if prefix (String ch "") (String c rest) then from else found)
                  (String ch "") rest).
        rewrite Hidx.
        change (String.length (String c pre)) with (S (String.length pre)). lia.
    + rewrite orb_false_r in Hin. apply Ascii.eqb_eq in Hin. subst c.
      exists "", rest. split; [reflexivity |]. split; [exact Hrest |].
      apply (lastIndexOf_from_last ch "" rest from found Hrest).
  - left. split; [reflexivity |]. apply lastIndexOf_from_absent. exact Hin.
Qed.

Lemma length_app (a b : string) :
  String.length (a ++ b) = (String.length a + String.length b)%nat.
Proof. induction a as [| c a IH]; simpl; [reflexivity | rewrite IH; reflexivity]. Qed.

Lemma app_assoc_string (a b c : string) : (a ++ b) ++ c = a ++ b ++ c.
Proof. induction a as [| x a IH]; simpl; [reflexivity | rewrite IH; reflexivity]. Qed.

Lemma substring_whole (x post : string) :
  substring 0 (String.length x) (x ++ post) = x.
Proof.
  induction x as [| c x IH]; simpl.
  - destruct post; reflexivity.
  - rewrite IH. reflexivity.
Qed.

Lemma substring_middle (pre x post : string) :
  substring (String.length pre) (String.length x) (pre ++ x ++ post) = x.
Proof.
  induction pre as [| c pre IH]; simpl.
  - apply substring_whole.
  - exact IH.
Qed.

Lemma substring_none (n : nat) (s : string) : substring n 0 s = "".
Proof.
  revert n. induction s as [| c s IH]; intros [| n]; simpl; try reflexivity.
  apply IH.
Qed.

(** The slice of a text whose first opening brace comes before its last
    closing brace. *)
Lemma slice_between_braces (pre mid post : string) :
  includes pre "{" = false ->
  includes post "}" = false ->
  json_slice (pre ++ "{" ++ mid ++ "}" ++ post) = "{" ++ mid ++ "}".
Proof.
  intros Hpre Hpost. unfold json_slice, indexOf, lastIndexOf.
  change (pre ++ "{" ++ mid ++ "}" ++ post)
    with (pre ++ String "{" (mid ++ String "}" post)) at 2.
  rewrite (indexOf_from_first "{" pre _ 0) by (lia || assumption).
  replace (pre ++ "{" ++ mid ++ "}" ++ post)
    with ((pre ++ "{" ++ mid) ++ String "}" post) at 2.
  2:{ rewrite !app_assoc_string. reflexivity. }
  rewrite (lastIndexOf_from_last "}" (pre ++ "{" ++ mid) post 0 (-1))
    by assumption.
  unfold slice.
  rewrite !length_app.
  change (String.length "{") with 1%nat. change (String.length "}") with 1%nat.
  set (a := String.length pre). set (m := String.length mid).
  set (b := String.length post).
  assert (Hlo : (0 + Z.of_nat a <? 0) = false) by (apply Z.ltb_ge; lia).
  assert (Hhi : (0 + Z.of_nat (a + (1 + m)) + 1 <? 0) = false)
    by (apply Z.ltb_ge; lia).
  rewrite Hlo, Hhi.
  replace (Z.to_nat (Z.min (0 + Z.of_nat a) (Z.of_nat (a + (1 + (m + (1 + b)))))))
    with a by lia.
  replace (Z.to_nat
             (Z.max
                (Z.min (0 + Z.of_nat (a + (1 + m)) + 1)
                       (Z.of_nat (a + (1 + (m + (1 + b)))))
                 - Z.min (0 + Z.of_nat a) (Z.of_nat (a + (1 + (m + (1 + b))))))
                0))
    with (String.length ("{" ++ mid ++ "}")).
  2:{ rewrite !length_app. change (String.length "{") with 1%nat.
      change (String.length "}") with 1%nat. fold m. lia. }
  replace (pre ++ "{" ++ mid ++ "}" ++ post)
    with (pre ++ ("{" ++ mid ++ "}") ++ post).
  2:{ rewrite !app_assoc_string. reflexivity. }
  apply substring_middle.
Qed.

(** X7: in a text that has an opening brace before a closing one,
    [indexOf] finds the first opening brace, [lastIndexOf] the last closing
    brace, and the slice handed to [JSON.parse] runs from the one to the
    other, both included: what precedes and what follows is dropped. *)
Theorem json_slice_braces (pre mid post : string) :
  includes pre "{" = false ->
  includes post "}" = false ->
  let text := pre ++ "{" ++ mid ++ "}" ++ post in
  indexOf text "{" = Z.of_nat (String.length pre)
  /\ lastIndexOf text "}" = Z.of_nat (String.length pre + 1 + String.length mid)
  /\ json_slice text = "{" ++ mid ++ "}".
Proof.
  intros Hpre Hpost text. split; [| split].
  - unfold text, indexOf.
    change (pre ++ "{" ++ mid ++ "}" ++ post)
      with (pre ++ String "{" (mid ++ String "}" post)).
    rewrite (indexOf_from_first "{" pre _ 0) by (lia || assumption). lia.
  - unfold text, lastIndexOf.
    replace (pre ++ "{" ++ mid ++ "}" ++ post)
      with ((pre ++ "{" ++ mid) ++ String "}" post)
      by (rewrite !app_assoc_string; reflexivity).
    rewrite (lastIndexOf_from_last "}" (pre ++ "{" ++ mid) post 0 (-1))
      by assumption.
    rewrite !length_app. change (String.length "{") with 1%nat. lia.
  - apply slice_between_braces; assumption.
Qed.

(** X8: a text that lacks one of the two braces: the slice handed to
    [JSON.parse] is empty, or is the closing brace the text ends with. *)
Theorem json_slice_without_braces (text : string) :
  (includes text "{" = false -> json_slice text = "" \/ json_slice text = "}")
  /\ (includes text "}" = false -> json_slice text = "").
Proof.
  split.
  - intros Hopen. unfold json_slice, indexOf, lastIndexOf.
    rewrite (indexOf_from_absent "{" text 0) by (lia || assumption).
    destruct (lastIndexOf_from_cases "}" text 0 (-1))
      as [[_ ->] | [pre [post [-> [Hpost ->]]]]].
    + left. unfold slice. cbn [Z.ltb Z.compare Z.add Z.opp Z.pos_sub].
      replace (Z.to_nat (Z.max (Z.min 0 (Z.of_nat (String.length text))
                                - Z.max (Z.of_nat (String.length text) + -1) 0) 0))
        with 0%nat by lia.
      apply substring_none.
    + unfold slice. rewrite length_app.
      change (String.length (String "}" post)) with (S (String.length post)).
      set (a := String.length pre). set (c := String.length post).
      assert (Hhi : (0 + Z.of_nat a + 1 <? 0) = false) by (apply Z.ltb_ge; lia).
      rewrite Hhi. cbn [Z.ltb Z.compare].
      destruct post as [| x post'].
      * right.
        replace (Z.to_nat (Z.max (Z.of_nat (a + S c) + -1) 0)) with a
          by (subst c; simpl; lia).
        replace (Z.to_nat
                   (Z.max (Z.min (0 + Z.of_nat a + 1) (Z.of_nat (a + S c))
                           - Z.max (Z.of_nat (a + S c) + -1) 0) 0))
          with (String.length "}") by (subst c; simpl; lia).
        apply (substring_middle pre "}" "").
      * left.
        replace (Z.to_nat
                   (Z.max (Z.min (0 + Z.of_nat a + 1) (Z.of_nat (a + S c))
                           - Z.max (Z.of_nat (a + S c) + -1) 0) 0))
          with 0%nat by (subst c; simpl; lia).
        apply substring_none.
  - intros Hclose. unfold json_slice, lastIndexOf.
    rewrite (lastIndexOf_from_absent "}" text 0 (-1) Hclose).
    unfold slice. cbn [Z.ltb Z.compare Z.add Z.opp Z.pos_sub].
    set (len := Z.of_nat (String.length text)).
    set (from := if indexOf text "{" <? 0
                 then Z.max (len + indexOf text "{") 0
                 else Z.min (indexOf text "{") len).
    assert (Hfrom : 0 <= from).
    { unfold from. destruct (indexOf text "{" <? 0) eqn:E; [lia |].
      apply Z.ltb_ge in E. unfold len. lia. }
    replace (Z.to_nat (Z.max (Z.min 0 len - from) 0)) with 0%nat
      by (unfold len; lia).
    apply substring_none.
Qed.

(** X7, witness: the answer with commentary of [answer_without_risk]. *)
Lemma json_slice_braces_witness :
  indexOf answer_without_risk "{" = 6
  /\ lastIndexOf answer_without_risk "}" = 50
  /\ json_slice answer_without_risk = object_without_risk.
Proof.
  exact (json_slice_braces
           "Sure: "
           (quoted "forecast_mgdl" ++ ": 95, " ++ quoted "forecast_minutes" ++ ": 30")
           " Stay safe." eq_refl eq_refl).
Defined.

(** X8, witness: a text that ends with a closing brace and has no opening
    one, and a text with no closing brace. *)
Lemma json_slice_without_braces_witness :
  (json_slice "no data }" = "" \/ json_slice "no data }" = "}")
  /\ json_slice "{ unfinished" = "".
Proof.
  split.
  - exact (proj1 (json_slice_without_braces "no data }") eq_refl).
  - exact (proj2 (json_slice_without_braces "{ unfinished") eq_refl).
Defined.

(* ================================================================== *)
(** ** Every run of the predictive handler *)

Lemma num_leb_Fin (x y : Q) : num_leb (Fin x) (Fin y) = true <-> (x <= y)%Q.
Proof.
  unfold num_leb. rewrite Qle_alt.
  destruct (x ?= y)%Q; split; intros H; try reflexivity; try discriminate.
  exfalso. apply H. reflexivity.
Qed.

(** [Math.max(60, Math.min(x, 250))]: [NaN] exactly on [NaN], and otherwise
    between 60 and 250, the infinities included. *)
Lemma clamp_nan_or_bounded (x : number) :
  (is_nan x = true /\ Math_max (Fin 60) (Math_min x (Fin 250)) = NaN)
  \/ (is_nan x = false
      /\ within_bounds (Math_max (Fin 60) (Math_min x (Fin 250))) = true).
Proof.
  destruct x as [| | | q]; [left | right | right | right];
    try (split; reflexivity).
  split; [reflexivity |].
  unfold Math_min, Math_max. cbn [is_nan orb]. rewrite num_ltb_Fin.
  destruct (Qlt_le_dec 250 q) as [H1 | H1]; cbn [is_nan orb]; rewrite num_ltb_Fin.
  - reflexivity.
  - unfold within_bounds.
    destruct (Qlt_le_dec 60 q) as [H2 | H2]; apply andb_true_intro; split;
      apply num_leb_Fin; lra.
Qed.

(** The time value of a date built from an integer within the range of
    dates. *)
Lemma TimeClip_integer (q : Q) (z : Z) :
  (q == inject_Z z)%Q ->
  Z.abs z <= 8640000000000000 ->
  TimeClip (Fin q) = Some z.
Proof.
  intros Hq Hrange. unfold TimeClip.
  assert (Habs : Qle_bool (Qabs q) (inject_Z 8640000000000000) = true).
  { apply Qle_bool_iff. rewrite Hq.
    assert (Hz : (Qabs (inject_Z z) == inject_Z (Z.abs z))%Q).
    { unfold Qabs, inject_Z. reflexivity. }
    rewrite Hz. rewrite <- Zle_Qle. exact Hrange. }
  rewrite Habs.
  assert (Hfloor : Qfloor q = z) by (rewrite Hq; apply Qfloor_Z).
  assert (Hceil : Qceiling q = z) by (rewrite Hq; apply Qceiling_Z).
  rewrite Hfloor, Hceil. destruct (Qle_bool 0 q); reflexivity.
Qed.

Section PredictOutcomes.
Context {P : Platform}.

Lemma adjustment_of_throws (insulinType insulinUnits calories activity : value) :
  nullish_or_string insulinType = false \/ nullish_or_string activity = false ->
  adjustment_of insulinType insulinUnits calories activity = Throw TypeError.
Proof.
  intros [H | H].
  - destruct insulinType; try discriminate H; reflexivity.
  - unfold adjustment_of.
    apply bind_plain_throw; [apply plain_optional_lower_includes | intros fast].
    apply bind_plain_throw.
    { destruct fast; [| exact I].
      apply plain_bind; [apply plain_js_mul | intros dose; exact I]. }
    intros adjustment.
    apply bind_plain_throw; [apply plain_optional_lower_includes | intros long].
    apply bind_plain_throw.
    { destruct long; [| exact I].
      apply plain_bind; [apply plain_js_mul | intros dose; exact I]. }
    intros adjustment'.
    apply bind_plain_throw; [apply plain_js_gt | intros heavy_meal].
    destruct activity; try discriminate H; reflexivity.
Qed.

(** The [try] block of the predictive handler: an error before the clock is
    read, a [TypeError] after it, or the 200 with the four fields. *)
Lemma run_predict_answer_cases (w : world) (b : number) (completion : value) :
  (exists e, run w (predict_answer b completion) = ([], inr e))
  \/ run w (predict_answer b completion) = ([ReadClock], inr TypeError)
  \/ (exists alertList parsed,
         run w (predict_answer b completion)
         = ([ReadClock], replied 200 (predict_payload b alertList parsed))).
Proof.
  unfold predict_answer.
  destruct (quiet_cases _ (quiet_message_content completion))
    as [[text ->] | [e ->]]; [| left; exists e; reflexivity].
  cbn [bind].
  destruct (quiet_cases _ (quiet_extract_json text))
    as [[parsed ->] | [e ->]]; [| left; exists e; reflexivity].
  cbn [bind].
  destruct (plain_cases _ (plain_fields_of_parsed parsed))
    as [[fields ->] | ->]; [| left; exists TypeError; reflexivity].
  cbn [bind].
  destruct (plain_cases _ (plain_with_forecast b fields))
    as [[fields' ->] | ->]; [| left; exists TypeError; reflexivity].
  cbn [bind].
  destruct (plain_cases _ (plain_with_risk fields'))
    as [[fields'' ->] | ->]; [| left; exists TypeError; reflexivity].
  cbn [bind trigger run answer]. right.
  destruct (plain_cases _ (plain_alertList_of (now w) fields''))
    as [[alertList ->] | ->]; [right | left; reflexivity].
  exists alertList, fields''. reflexivity.
Qed.

(** The handler when the provider rejects the call. *)
Lemma run_predict_rejected (reqbody : list (string * value)) (w : world)
      (b : number) (p : prompt) (e : error) :
  history_missing (prop "glucoseHistory" reqbody) = false ->
  request_baseline reqbody = Ret b ->
  request_prompt reqbody = Ret p ->
  provider w (predict_request p) = Rejected e ->
  run w (predict_handler reqbody)
  = ([Called (predict_request p); Logged "Prediction error:" e], prediction_failed).
Proof.
  intros Hguard Hb Hp Hprov.
  unfold predict_handler. rewrite Hguard, Hb. cbn [bind]. rewrite Hp. cbn [bind].
  rewrite run_try_catch, run_bind, run_await_create, Hprov. reflexivity.
Qed.

(** The baseline of a request is [NaN] or lies between 60 and 250. *)
Lemma request_baseline_nan_or_bounded (reqbody : list (string * value)) (b : number) :
  request_baseline reqbody = Ret b -> b = NaN \/ within_bounds b = true.
Proof.
  unfold request_baseline. intros H.
  destruct (bind_Ret_inv _ _ _ H) as [adjustment [_ Hbounded]].
  unfold boundedForecast_of in Hbounded.
  destruct (bind_Ret_inv _ _ _ Hbounded) as [approxForecast [_ Hrest]].
  destruct (bind_Ret_inv _ _ _ Hrest) as [approx [_ Hret]].
  injection Hret as <-.
  destruct (clamp_nan_or_bounded approx) as [[_ ->] | [_ Hin]];
    [left; reflexivity | right; exact Hin].
Qed.

(** The handler on a request with a history: a [TypeError] that escapes
    before the provider is invoked, or one call and what follows it. *)
Lemma run_predict_accepted_cases (reqbody : list (string * value)) (w : world) :
  history_missing (prop "glucoseHistory" reqbody) = false ->
  run w (predict_handler reqbody) = ([], inr TypeError)
  \/ (exists b p,
         request_baseline reqbody = Ret b
         /\ request_prompt reqbody = Ret p
         /\ ((exists e,
                 run w (predict_handler reqbody)
                 = ([Called (predict_request p); Logged "Prediction error:" e],
                    prediction_failed))
             \/ run w (predict_handler reqbody)
                = ([Called (predict_request p); ReadClock;
                    Logged "Prediction error:" TypeError],
                   prediction_failed)
             \/ (exists alertList parsed,
                    run w (predict_handler reqbody)
                    = ([Called (predict_request p); ReadClock],
                       replied 200 (predict_payload b alertList parsed))))).
Proof.
  intros Hguard.
  destruct (plain_cases _ (plain_request_baseline reqbody)) as [[b Hb] | Hb].
  2:{ left. unfold predict_handler. rewrite Hguard, Hb. reflexivity. }
  destruct (plain_cases _ (plain_request_prompt reqbody)) as [[p Hp] | Hp].
  2:{ left. unfold predict_handler. rewrite Hguard, Hb. cbn [bind].
      rewrite Hp. reflexivity. }
  right. exists b, p. split; [exact Hb |]. split; [exact Hp |].
  destruct (provider w (predict_request p)) as [e | completion] eqn:Hprov.
  { left. exists e. exact (run_predict_rejected reqbody w b p e Hguard Hb Hp Hprov). }
  rewrite (run_predict_handler reqbody w b p completion Hguard Hb Hp Hprov).
  destruct (run_predict_answer_cases w b completion)
    as [[e ->] | [-> | [alertList [parsed ->]]]].
  - left. exists e. reflexivity.
  - right. left. reflexivity.
  - right. right. exists alertList, parsed. reflexivity.
Qed.

(** A history passes line 57 exactly when it is an array with at least one
    item, whatever the items are. *)
Lemma history_missing_false (glucoseHistory : value) :
  history_missing glucoseHistory = false
  <-> exists x rest, glucoseHistory = VArr (x :: rest).
Proof.
  split.
  - unfold history_missing.
    destruct glucoseHistory as [| | c | n | s | [| x rest] | fields];
      cbn [Array_isArray negb]; rewrite ?orb_true_r; try discriminate.
    intros _. exists x, rest. reflexivity.
  - intros [x [rest ->]]. reflexivity.
Qed.

(** X9: every run of the predictive handler: the 400; a [TypeError] that
    escapes before the provider is invoked; or, with the baseline [b] and
    the prompt [p] of the request, one call followed by one line of log and
    the generic 500 (before or after the clock is read), or by the 200 with
    its four fields. *)
Theorem predict_outcomes (reqbody : list (string * value)) (w : world) :
  run w (predict_handler reqbody) = ([], history_required)
  \/ run w (predict_handler reqbody) = ([], inr TypeError)
  \/ (exists b p,
         request_baseline reqbody = Ret b
         /\ request_prompt reqbody = Ret p
         /\ ((exists e,
                 run w (predict_handler reqbody)
                 = ([Called (predict_request p); Logged "Prediction error:" e],
                    prediction_failed))
             \/ run w (predict_handler reqbody)
                = ([Called (predict_request p); ReadClock;
                    Logged "Prediction error:" TypeError],
                   prediction_failed)
             \/ (exists alertList parsed,
                    run w (predict_handler reqbody)
                    = ([Called (predict_request p); ReadClock],
                       replied 200 (predict_payload b alertList parsed))))).
Proof.
  destruct (history_missing (prop "glucoseHistory" reqbody)) eqn:Hguard.
  - left. unfold predict_handler. rewrite Hguard. reflexivity.
  - right. apply run_predict_accepted_cases. exact Hguard.
Qed.

(** X10: when the provider rejects the call, or answers something whose
    [choices[0].message.content] cannot be read or is neither a string nor
    an array, the predictive handler logs the error and answers the generic
    500. *)
Theorem predict_provider_failure
        (reqbody : list (string * value)) (w : world) (b : number) (p : prompt) :
  history_missing (prop "glucoseHistory" reqbody) = false ->
  request_baseline reqbody = Ret b ->
  request_prompt reqbody = Ret p ->
  (forall e, provider w (predict_request p) = Rejected e ->
     run w (predict_handler reqbody)
     = ([Called (predict_request p); Logged "Prediction error:" e],
        prediction_failed))
  /\ (forall completion e,
        provider w (predict_request p) = Resolved completion ->
        message_content completion = Throw e ->
        run w (predict_handler reqbody)
        = ([Called (predict_request p); Logged "Prediction error:" e],
           prediction_failed))
  /\ (forall completion content,
        provider w (predict_request p) = Resolved completion ->
        message_content completion = Ret content ->
        (forall text, content <> VStr text) ->
        (forall items, content <> VArr items) ->
        run w (predict_handler reqbody)
        = ([Called (predict_request p); Logged "Prediction error:" TypeError],
           prediction_failed)).
Proof.
  intros Hguard Hb Hp. split; [| split].
  - intros e Hprov. exact (run_predict_rejected reqbody w b p e Hguard Hb Hp Hprov).
  - intros completion e Hprov Hcontent.
    rewrite (run_predict_handler reqbody w b p completion Hguard Hb Hp Hprov).
    unfold predict_answer. rewrite Hcontent. reflexivity.
  - intros completion content Hprov Hcontent Hstr Harr.
    rewrite (run_predict_handler reqbody w b p completion Hguard Hb Hp Hprov).
    unfold predict_answer. rewrite Hcontent. cbn [bind].
    destruct content as [| | c | n | s | items | fields]; try reflexivity.
    + exfalso. apply (Hstr s). reflexivity.
    + exfalso. apply (Harr items). reflexivity.
Qed.

(** X11: an [insulinType] or an [activity] that is neither absent, [null]
    nor a string has no [toLowerCase]: lines 65 to 68 throw outside the
    [try] block, so the handler sends no response and does not invoke the
    provider. *)
Theorem predict_type_error_escapes
        (reqbody : list (string * value)) (w : world) :
  history_missing (prop "glucoseHistory" reqbody) = false ->
  nullish_or_string (prop "insulinType" reqbody) = false
  \/ nullish_or_string (prop "activity" reqbody) = false ->
  run w (predict_handler reqbody) = ([], inr TypeError).
Proof.
  intros Hguard Hbad. unfold predict_handler. rewrite Hguard.
  unfold request_baseline, request_adjustment.
  rewrite (adjustment_of_throws _ _ _ _ Hbad). reflexivity.
Qed.

(** X12: line 116 replaces the [forecast_mgdl] of the provider by the
    baseline exactly when it converts to [NaN]; any other value is reported
    as the provider gave it. The response always carries the baseline. *)
Theorem predict_substitutes_nan_forecast
        (reqbody : list (string * value)) (w : world) (b : number) (p : prompt)
        (completion : value) (text : string)
        (parsed : list (string * value)) (f m : number) :
  history_missing (prop "glucoseHistory" reqbody) = false ->
  request_baseline reqbody = Ret b ->
  request_prompt reqbody = Ret p ->
  provider w (predict_request p) = Resolved completion ->
  completion_text completion text ->
  JSON_parse (json_slice text) = Some (VObj parsed) ->
  ToNumber (prop "forecast_mgdl" parsed) = Ret f ->
  ToNumber (prop "forecast_minutes" parsed) = Ret m ->
  exists payload,
    run w (predict_handler reqbody)
    = ([Called (predict_request p); ReadClock], replied 200 payload)
    /\ field "forecast_mgdl" payload
       = (if is_nan f then VNum b else prop "forecast_mgdl" parsed)
    /\ field "baseline" payload = VNum b.
Proof.
  intros Hguard Hbase Hprompt Hprov Htext Hparse Hf Hm.
  rewrite (run_predict_handler reqbody w b p completion Hguard Hbase Hprompt Hprov).
  rewrite (run_predict_answer w b completion text parsed f m Htext Hparse Hf Hm).
  eexists. split; [reflexivity |].
  unfold predict_payload.
  cbn [field prop lookup String.eqb Ascii.eqb Bool.eqb].
  fold (prop "forecast_mgdl"
             (classified (if is_nan f then b else f) (substituted b f parsed))).
  rewrite classified_keeps by reflexivity.
  split; [| reflexivity].
  unfold substituted. destruct (is_nan f); [| reflexivity].
  apply prop_assign_same.
Qed.

(** X13: a truthy [risk_type] of the provider is not checked against the
    forecast: the alert repeats it and the main alert is chosen by it, so
    any value other than the two exact strings gives the Stable alert. *)
Theorem predict_keeps_stated_risk
        (reqbody : list (string * value)) (w : world) (b : number) (p : prompt)
        (completion : value) (text : string)
        (parsed : list (string * value)) (f m : number) :
  history_missing (prop "glucoseHistory" reqbody) = false ->
  request_baseline reqbody = Ret b ->
  request_prompt reqbody = Ret p ->
  provider w (predict_request p) = Resolved completion ->
  completion_text completion text ->
  JSON_parse (json_slice text) = Some (VObj parsed) ->
  ToNumber (prop "forecast_mgdl" parsed) = Ret f ->
  ToNumber (prop "forecast_minutes" parsed) = Ret m ->
  ToBoolean (prop "risk_type" parsed) = true ->
  exists payload,
    run w (predict_handler reqbody)
    = ([Called (predict_request p); ReadClock], replied 200 payload)
    /\ field "risk" (the_alert payload) = prop "risk_type" parsed
    /\ field "main_alert" payload = mainAlert_of (prop "risk_type" parsed)
    /\ (prop "risk_type" parsed <> VStr "Hypo risk" ->
        prop "risk_type" parsed <> VStr "Hyper risk" ->
        field "type" (field "main_alert" payload) = VStr "Stable").
Proof.
  intros Hguard Hbase Hprompt Hprov Htext Hparse Hf Hm Hrisk.
  rewrite (run_predict_handler reqbody w b p completion Hguard Hbase Hprompt Hprov).
  rewrite (run_predict_answer w b completion text parsed f m Htext Hparse Hf Hm).
  eexists. split; [reflexivity |].
  assert (Hkept : prop "risk_type"
                    (classified (if is_nan f then b else f) (substituted b f parsed))
                  = prop "risk_type" parsed).
  { unfold classified.
    rewrite (substituted_keeps b f "risk_type" parsed eq_refl), Hrisk.
    apply substituted_keeps. reflexivity. }
  unfold predict_payload, the_alert, alert_at.
  cbn [field prop lookup String.eqb Ascii.eqb Bool.eqb items_of nth].
  fold (prop "risk_type"
             (classified (if is_nan f then b else f) (substituted b f parsed))).
  rewrite Hkept.
  split; [reflexivity |]. split; [reflexivity |].
  intros Hhypo Hhyper. unfold mainAlert_of.
  destruct (prop "risk_type" parsed) as [| | c | n | s | items | fields];
    try reflexivity.
  cbn [strict_eq_string].
  destruct (String.eqb s "Hypo risk") eqn:E1.
  { apply String.eqb_eq in E1. subst s. exfalso. apply Hhypo. reflexivity. }
  destruct (String.eqb s "Hyper risk") eqn:E2.
  { apply String.eqb_eq in E2. subst s. exfalso. apply Hhyper. reflexivity. }
  reflexivity.
Qed.

(** X14: commentary before the first opening brace and after the last
    closing brace of the answer changes nothing in what the handler does
    with it. *)
Theorem predict_ignores_commentary (b : number) (wordy bare : value)
        (pre mid post : string) :
  completion_text wordy (pre ++ "{" ++ mid ++ "}" ++ post) ->
  completion_text bare ("{" ++ mid ++ "}") ->
  includes pre "{" = false ->
  includes post "}" = false ->
  predict_answer b wordy = predict_answer b bare.
Proof.
  intros Hwordy Hbare Hpre Hpost. unfold predict_answer.
  unfold completion_text in Hwordy, Hbare. rewrite Hwordy, Hbare. cbn [bind].
  rewrite !extract_json_text.
  rewrite (slice_between_braces pre mid post Hpre Hpost).
  pose proof (slice_between_braces "" mid "" eq_refl eq_refl) as Hbare_slice.
  change ("" ++ "{" ++ mid ++ "}" ++ "") with ("{" ++ mid ++ "}" ++ "")
    in Hbare_slice.
  change ("}" ++ "") with "}" in Hbare_slice.
  rewrite Hbare_slice. reflexivity.
Qed.

(** X15: every 200 of the predictive handler carries as [baseline] the
    bounded forecast of the request, which is [NaN] or lies between 60 and
    250. *)
Theorem predict_baseline_nan_or_bounded
        (reqbody : list (string * value)) (w : world)
        (t : list observation) (r : response) :
  run w (predict_handler reqbody) = (t, inl r) ->
  status r = 200 ->
  exists b,
    request_baseline reqbody = Ret b
    /\ field "baseline" (body r) = VNum b
    /\ (b = NaN \/ within_bounds b = true).
Proof.
  intros Hrun Hstatus.
  destruct (history_missing (prop "glucoseHistory" reqbody)) eqn:Hguard.
  { unfold predict_handler in Hrun. rewrite Hguard in Hrun.
    injection Hrun as _ <-. discriminate Hstatus. }
  destruct (run_predict_accepted_cases reqbody w Hguard)
    as [He | [b [p [Hb [_ [[e He] | [He | [alertList [parsed He]]]]]]]]];
    rewrite He in Hrun; try discriminate Hrun.
  - injection Hrun as _ <-. discriminate Hstatus.
  - injection Hrun as _ <-. discriminate Hstatus.
  - injection Hrun as _ <-. exists b. split; [exact Hb |].
    split; [reflexivity | exact (request_baseline_nan_or_bounded reqbody b Hb)].
Qed.

(** X16: only the last reading enters the baseline, and a last reading
    sent as a string is concatenated with the adjustment, not added to it,
    before the result is read back as a number. *)
Theorem string_reading_is_concatenated
        (reqbody : list (string * value)) (earlier : list value)
        (s : string) (adjustment : number) :
  prop "glucoseHistory" reqbody = VArr (earlier ++ [VStr s]) ->
  request_adjustment reqbody = Ret adjustment ->
  request_baseline reqbody
  = Ret (Math_max (Fin 60)
                  (Math_min (StringToNumber (s ++ NumberToString adjustment))
                            (Fin 250))).
Proof.
  intros Hhistory Hadjustment. unfold request_baseline.
  rewrite Hadjustment. cbn [bind]. rewrite Hhistory.
  unfold boundedForecast_of. cbn [items_of]. rewrite last_last. reflexivity.
Qed.

(** X17: without an insulin type, calories and an activity the adjustment
    is 0, whatever [insulinUnits] is, and the baseline is the last reading
    clamped to [60, 250]. *)
Theorem baseline_defaults
        (reqbody : list (string * value)) (earlier : list value) (q : Q) :
  prop "glucoseHistory" reqbody = VArr (earlier ++ [VNum (Fin q)]) ->
  nullish (prop "insulinType" reqbody) = true ->
  nullish (prop "calories" reqbody) = true ->
  nullish (prop "activity" reqbody) = true ->
  request_adjustment reqbody = Ret (Fin 0)
  /\ exists b, request_baseline reqbody = Ret b /\ number_is b (clamp q 60 250).
Proof.
  intros Hhistory Hinsulin Hcalories Hactivity.
  assert (Hadjustment : request_adjustment reqbody = Ret (Fin 0)).
  { unfold request_adjustment, adjustment_of.
    destruct (prop "insulinType" reqbody); try discriminate Hinsulin;
      destruct (prop "calories" reqbody); try discriminate Hcalories;
      destruct (prop "activity" reqbody); try discriminate Hactivity;
      reflexivity. }
  split; [exact Hadjustment |].
  unfold request_baseline. rewrite Hadjustment. cbn [bind]. rewrite Hhistory.
  unfold boundedForecast_of. cbn [items_of]. rewrite last_last.
  unfold js_add, ToNumber. cbn [bind ToPrimitive primitive_number].
  eexists. split; [reflexivity |].
  apply clamp_code. cbn [num_add number_is]. rewrite Qred_correct. ring.
Qed.

(** X18: the alert repeats [forecast_minutes] and, when it is an integer,
    shows the first five characters of the time of day that many minutes
    after the clock was read. *)
Theorem predict_alert_time
        (reqbody : list (string * value)) (w : world) (b : number) (p : prompt)
        (completion : value) (text : string)
        (parsed : list (string * value)) (f : number) (q : Q) (minutes : Z) :
  history_missing (prop "glucoseHistory" reqbody) = false ->
  request_baseline reqbody = Ret b ->
  request_prompt reqbody = Ret p ->
  provider w (predict_request p) = Resolved completion ->
  completion_text completion text ->
  JSON_parse (json_slice text) = Some (VObj parsed) ->
  ToNumber (prop "forecast_mgdl" parsed) = Ret f ->
  ToNumber (prop "forecast_minutes" parsed) = Ret (Fin q) ->
  (q == inject_Z minutes)%Q ->
  Z.abs (now w + 60000 * minutes) <= 8640000000000000 ->
  exists payload,
    run w (predict_handler reqbody)
    = ([Called (predict_request p); ReadClock], replied 200 payload)
    /\ field "in_minutes" (the_alert payload) = prop "forecast_minutes" parsed
    /\ field "time" (the_alert payload)
       = VStr (slice (timeString (now w + 60000 * minutes)) 0 5).
Proof.
  intros Hguard Hbase Hprompt Hprov Htext Hparse Hf Hm Hq Hrange.
  rewrite (run_predict_handler reqbody w b p completion Hguard Hbase Hprompt Hprov).
  rewrite (run_predict_answer w b completion text parsed f (Fin q)
             Htext Hparse Hf Hm).
  eexists. split; [reflexivity |].
  unfold predict_payload, the_alert, alert_at.
  cbn [field prop lookup String.eqb Ascii.eqb Bool.eqb items_of nth].
  fold (prop "forecast_minutes"
             (classified (if is_nan f then b else f) (substituted b f parsed))).
  rewrite classified_keeps by reflexivity.
  rewrite substituted_keeps by reflexivity.
  split; [reflexivity |].
  cbn [num_of_Z num_mul num_add].
  rewrite (TimeClip_integer _ (now w + 60000 * minutes)).
  - reflexivity.
  - rewrite !Qred_correct, Hq, inject_Z_plus, inject_Z_mult. ring.
  - exact Hrange.
Qed.

(** X19: the predictive handler answers 400 exactly when [glucoseHistory]
    is not an array with at least one item: the items themselves and the
    other fields are not validated. *)
Theorem predict_400_only_without_history
        (reqbody : list (string * value)) (w : world) :
  (exists t r, run w (predict_handler reqbody) = (t, inl r) /\ status r = 400)
  <-> ~ (exists x rest, prop "glucoseHistory" reqbody = VArr (x :: rest)).
Proof.
  rewrite <- history_missing_false. split.
  - intros [t [r [Hrun Hstatus]]] Hguard.
    destruct (run_predict_accepted_cases reqbody w Hguard)
      as [He | [b [p [_ [_ [[e He] | [He | [alertList [parsed He]]]]]]]]];
      rewrite He in Hrun; try discriminate Hrun;
      injection Hrun as _ <-; discriminate Hstatus.
  - intros Hguard.
    destruct (history_missing (prop "glucoseHistory" reqbody)) eqn:E;
      [| exfalso; apply Hguard; reflexivity].
    eexists. eexists. unfold predict_handler. rewrite E.
    split; reflexivity.
Qed.

End PredictOutcomes.

(* ================================================================== *)
(** ** The runs of the predictive handler on the reference platform *)

(** X10, witness: the provider rejects the call, and then answers the number
    7 as content. *)
Lemma predict_provider_failure_witness :
  run (world_rejecting "timeout") (predict_handler one_reading)
  = ([Called (predict_request
                (PredictPrompt "120" "undefined" "undefined" "undefined"
                               "undefined"));
      Logged "Prediction error:" (ProviderError "timeout")],
     prediction_failed)
  /\ run {| provider := fun _ => Resolved (completion_with (VNum (Fin 7)));
            random := 0; now := 0 |}
         (predict_handler one_reading)
     = ([Called (predict_request
                   (PredictPrompt "120" "undefined" "undefined" "undefined"
                                  "undefined"));
         Logged "Prediction error:" TypeError],
        prediction_failed).
Proof.
  split.
  - exact (proj1 (predict_provider_failure
                    one_reading (world_rejecting "timeout") (Fin 120)
                    (PredictPrompt "120" "undefined" "undefined" "undefined"
                                   "undefined")
                    eq_refl eq_refl eq_refl)
                 (ProviderError "timeout") eq_refl).
  - assert (Hstr : forall text, VNum (Fin 7) <> VStr text)
      by (intros text; discriminate).
    assert (Harr : forall items, VNum (Fin 7) <> VArr items)
      by (intros items; discriminate).
    exact (proj2 (proj2 (predict_provider_failure
                           one_reading
                           {| provider :=
                                fun _ => Resolved (completion_with (VNum (Fin 7)));
                              random := 0; now := 0 |}
                           (Fin 120)
                           (PredictPrompt "120" "undefined" "undefined" "undefined"
                                          "undefined")
                           eq_refl eq_refl eq_refl))
                 (completion_with (VNum (Fin 7))) (VNum (Fin 7)) eq_refl eq_refl
                 Hstr Harr).
Defined.

(** X11, witness: [insulinType] is the number 5. *)
Lemma predict_type_error_escapes_witness :
  run (world_answering answer_complete 0 some_evening)
      (predict_handler numeric_insulin_type)
  = ([], inr TypeError).
Proof.
  exact (predict_type_error_escapes
           numeric_insulin_type
           (world_answering answer_complete 0 some_evening)
           eq_refl (or_introl eq_refl)).
Defined.

(** X12, witness: the provider answers "n/a" as [forecast_mgdl], and the
    response reports the baseline 120. *)
Lemma predict_substitutes_nan_forecast_witness :
  exists payload,
    run (world_answering answer_without_number 0 some_evening)
        (predict_handler one_reading)
    = ([Called (predict_request
                  (PredictPrompt "120" "undefined" "undefined" "undefined"
                                 "undefined"));
        ReadClock],
       replied 200 payload)
    /\ field "forecast_mgdl" payload = VNum (Fin 120)
    /\ field "baseline" payload = VNum (Fin 120).
Proof.
  exact (predict_substitutes_nan_forecast
           one_reading
           (world_answering answer_without_number 0 some_evening)
           (Fin 120)
           (PredictPrompt "120" "undefined" "undefined" "undefined" "undefined")
           (completion_with (VStr answer_without_number))
           answer_without_number
           [("forecast_mgdl", VStr "n/a"); ("risk_type", VStr "Stable");
            ("forecast_minutes", VNum (Fin 30))]
           NaN (Fin 30)
           eq_refl eq_refl eq_refl eq_refl
           (completion_with_text answer_without_number)
           eq_refl eq_refl eq_refl).
Defined.

(** X13, witness: the provider calls a forecast of 50 "Low"; the alert
    says "Low" and the main alert is the Stable one. *)
Lemma predict_keeps_stated_risk_witness :
  exists payload,
    run (world_answering answer_with_other_risk 0 some_evening)
        (predict_handler one_reading)
    = ([Called (predict_request
                  (PredictPrompt "120" "undefined" "undefined" "undefined"
                                 "undefined"));
        ReadClock],
       replied 200 payload)
    /\ field "forecast_mgdl" payload = VNum (Fin 50)
    /\ field "risk" (the_alert payload) = VStr "Low"
    /\ field "type" (field "main_alert" payload) = VStr "Stable".
Proof.
  destruct (predict_keeps_stated_risk
              (P := reference_platform)
              one_reading
              (world_answering answer_with_other_risk 0 some_evening)
              (Fin 120)
              (PredictPrompt "120" "undefined" "undefined" "undefined" "undefined")
              (completion_with (VStr answer_with_other_risk))
              answer_with_other_risk
              [("forecast_mgdl", VNum (Fin 50)); ("risk_type", VStr "Low");
               ("forecast_minutes", VNum (Fin 30))]
              (Fin 50) (Fin 30)
              eq_refl eq_refl eq_refl eq_refl
              (completion_with_text answer_with_other_risk)
              eq_refl eq_refl eq_refl eq_refl)
    as [payload [Hrun [Hrisk [_ Htype]]]].
  exists payload. split; [exact Hrun |].
  split.
  { injection Hrun as <-. reflexivity. }
  split; [exact Hrisk |].
  apply Htype; discriminate.
Defined.

(** X14, witness: the answer of [answer_without_risk] with and without its
    commentary. *)
Lemma predict_ignores_commentary_witness :
  predict_answer (Fin 120) (completion_with (VStr answer_without_risk))
  = predict_answer (Fin 120) (completion_with (VStr object_without_risk)).
Proof.
  exact (predict_ignores_commentary
           (Fin 120)
           (completion_with (VStr answer_without_risk))
           (completion_with (VStr object_without_risk))
           "Sure: "
           (quoted "forecast_mgdl" ++ ": 95, " ++ quoted "forecast_minutes" ++ ": 30")
           " Stay safe."
           (completion_with_text answer_without_risk)
           (completion_with_text object_without_risk)
           eq_refl eq_refl).
Defined.

(** X15, witness: the 200 that answers [one_reading] carries the baseline
    120. *)
Lemma predict_baseline_nan_or_bounded_witness :
  exists b,
    request_baseline one_reading = Ret b
    /\ field "baseline"
             (predict_payload
                (Fin 120)
                (VArr [VObj [("risk", VStr "Stable");
                             ("in_minutes", VNum (Fin 30));
                             ("time", VStr "22:43")]])
                [("forecast_mgdl", VNum (Fin 110)); ("risk_type", VStr "Stable");
                 ("forecast_minutes", VNum (Fin 30))])
       = VNum b
    /\ (b = NaN \/ within_bounds b = true).
Proof.
  exact (predict_baseline_nan_or_bounded
           one_reading
           (world_answering answer_complete 0 some_evening)
           [Called (predict_request
                      (PredictPrompt "120" "undefined" "undefined" "undefined"
                                     "undefined"));
            ReadClock]
           {| status := 200;
              body :=
                predict_payload
                  (Fin 120)
                  (VArr [VObj [("risk", VStr "Stable");
                               ("in_minutes", VNum (Fin 30));
                               ("time", VStr "22:43")]])
                  [("forecast_mgdl", VNum (Fin 110)); ("risk_type", VStr "Stable");
                   ("forecast_minutes", VNum (Fin 30))] |}
           eq_refl eq_refl).
Defined.

(** X16, witness: the readings 100 and "120" without anything else:
    "120" and "0" make "1200", clamped to 250. *)
Lemma string_reading_is_concatenated_witness :
  request_baseline string_reading = Ret (Fin 250).
Proof.
  exact (string_reading_is_concatenated
           string_reading [VNum (Fin 100)] "120" (Fin 0) eq_refl eq_refl).
Defined.

(** X17, witness: a reading of 300 and an [insulinUnits] that is no
    number. *)
Lemma baseline_defaults_witness :
  request_adjustment history_only = Ret (Fin 0)
  /\ exists b,
      request_baseline history_only = Ret b /\ number_is b (clamp 300 60 250).
Proof.
  exact (baseline_defaults history_only [] 300%Q eq_refl eq_refl eq_refl eq_refl).
Defined.

(** X18, witness: thirty minutes after 22:13:20 the alert shows 22:43. *)
Lemma predict_alert_time_witness :
  exists payload,
    run (world_answering answer_complete 0 some_evening)
        (predict_handler one_reading)
    = ([Called (predict_request
                  (PredictPrompt "120" "undefined" "undefined" "undefined"
                                 "undefined"));
        ReadClock],
       replied 200 payload)
    /\ field "in_minutes" (the_alert payload) = VNum (Fin 30)
    /\ field "time" (the_alert payload) = VStr "22:43".
Proof.
  exact (predict_alert_time
           one_reading
           (world_answering answer_complete 0 some_evening)
           (Fin 120)
           (PredictPrompt "120" "undefined" "undefined" "undefined" "undefined")
           (completion_with (VStr answer_complete))
           answer_complete
           [("forecast_mgdl", VNum (Fin 110)); ("risk_type", VStr "Stable");
            ("forecast_minutes", VNum (Fin 30))]
           (Fin 110) 30%Q 30
           eq_refl eq_refl eq_refl eq_refl
           (completion_with_text answer_complete)
           eq_refl eq_refl eq_refl
           (Qeq_refl 30)
           (proj1 (Z.leb_le (Z.abs (some_evening + 60000 * 30)) 8640000000000000)
                  eq_refl)).
Defined.

(** X19, witness: an empty history is answered 400, on a request that is
    complete otherwise. *)
Lemma predict_400_only_without_history_witness :
  exists t r,
    run (world_answering answer_complete 0 some_evening)
        (predict_handler [("glucoseHistory", VArr []);
                          ("insulinType", VStr "fast"); ("insulinUnits", VNum (Fin 4))])
    = (t, inl r)
    /\ status r = 400.
Proof.
  assert (Hnone : ~ (exists x rest,
                        prop "glucoseHistory"
                             [("glucoseHistory", VArr []);
                              ("insulinType", VStr "fast");
                              ("insulinUnits", VNum (Fin 4))]
                        = VArr (x :: rest)))
    by (intros [x [rest H]]; discriminate H).
  exact (proj2 (predict_400_only_without_history
                  [("glucoseHistory", VArr []);
                   ("insulinType", VStr "fast"); ("insulinUnits", VNum (Fin 4))]
                  (world_answering answer_complete 0 some_evening))
               Hnone).
Defined.

(* ================================================================== *)
(** ** The earlier variant of the handlers *)

Section EarlierOutcomes.
Context {P : Platform}.

(** The earlier forecast handler once the prompt is built. *)
Lemma run_earlier_forecast (reqbody : list (string * value)) (w : world)
      (shown : string) :
  ToString (prop "currentGlucose" reqbody) = Ret shown ->
  run w (earlier_forecast_handler reqbody) =
  let r := earlier_forecast_request shown in
  match provider w r with
  | Rejected e => ([Called r; Logged "Forecast error:" e], forecast_failed)
  | Resolved completion =>
      match message_content completion with
      | Ret (VStr text) =>
          ([Called r], replied 200 (VObj [("forecast", VStr (trim text))]))
      | Ret _ => ([Called r; Logged "Forecast error:" TypeError], forecast_failed)
      | Throw e => ([Called r; Logged "Forecast error:" e], forecast_failed)
      | Vis _ _ => ([], inr TypeError)
      end
  end.
Proof.
  intros Hshown. unfold earlier_forecast_handler. rewrite Hshown. cbn [bind].
  rewrite run_try_catch, run_bind, run_await_create. cbv zeta.
  destruct (provider w _) as [e | completion]; [reflexivity |].
  pose proof (quiet_message_content completion) as Hquiet.
  destruct (message_content completion) as [content | e | X ev k];
    [| reflexivity | contradiction].
  destruct content as [| | c | n | text | items | fields]; reflexivity.
Qed.


(** X21: every run of the earlier forecast handler: a [TypeError] that
    escapes while the prompt is built, or one call followed by a 200 whose
    forecast is a string, or by one line of log and the generic 500. It
    never answers 400. *)
Theorem earlier_forecast_outcomes (reqbody : list (string * value)) (w : world) :
  run w (earlier_forecast_handler reqbody) = ([], inr TypeError)
  \/ (exists shown,
         ToString (prop "currentGlucose" reqbody) = Ret shown
         /\ ((exists text,
                 run w (earlier_forecast_handler reqbody)
                 = ([Called (earlier_forecast_request shown)],
                    replied 200 (VObj [("forecast", VStr (trim text))])))
             \/ (exists e,
                    run w (earlier_forecast_handler reqbody)
                    = ([Called (earlier_forecast_request shown);
                        Logged "Forecast error:" e],
                       forecast_failed)))).
Proof.
  destruct (plain_cases _ (plain_ToString (prop "currentGlucose" reqbody)))
    as [[shown Hshown] | Hthrow].
  2:{ left. unfold earlier_forecast_handler. rewrite Hthrow. reflexivity. }
  right. exists shown. split; [exact Hshown |].
  rewrite (run_earlier_forecast reqbody w shown Hshown). cbv zeta.
  destruct (provider w _) as [e | completion].
  { right. exists e. reflexivity. }
  pose proof (quiet_message_content completion) as Hquiet.
  destruct (message_content completion) as [content | e | X ev k];
    [| right; exists e; reflexivity | contradiction].
  destruct content as [| | c | n | text | items | fields];
    try (right; exists TypeError; reflexivity).
  left. exists text. reflexivity.
Qed.

(** The [try] block of the earlier predictive handler on an answer whose
    slice parses to an object, when its [forecast_minutes] converts to a
    number. *)
Lemma run_earlier_predict_answer (w : world) (completion : value)
      (text : string) (parsed : list (string * value)) (m : number) :
  completion_text completion text ->
  JSON_parse (json_slice text) = Some (VObj parsed) ->
  ToNumber (prop "forecast_minutes" parsed) = Ret m ->
  run w (earlier_predict_answer completion)
  = ([ReadClock],
     replied 200
       (VObj [("forecast_mgdl", prop "forecast_mgdl" parsed);
              ("main_alert", earlier_mainAlert_of (prop "risk_type" parsed));
              ("alerts", alert_at (now w) m parsed)])).
Proof.
  intros Htext Hparse Hm.
  unfold earlier_predict_answer. unfold completion_text in Htext. rewrite Htext.
  cbn [bind]. rewrite extract_json_text, Hparse.
  unfold trigger. cbn [bind run answer earlier_fields_of_parsed].
  unfold alertList_of. rewrite (js_mul_number _ m _ Hm). reflexivity.
Qed.

(** The earlier handler around the [try] block. *)
Lemma run_earlier_predict_handler (reqbody : list (string * value)) (w : world)
      (p : prompt) (completion : value) :
  earlier_request_prompt reqbody = Ret p ->
  provider w (earlier_predict_request p) = Resolved completion ->
  run w (earlier_predict_handler reqbody)
  = match run w (earlier_predict_answer completion) with
    | (t, inl r) => (Called (earlier_predict_request p) :: t, inl r)
    | (t, inr e) =>
        (Called (earlier_predict_request p) :: t ++ [Logged "Prediction error:" e],
         prediction_failed)%list
    end.
Proof.
  intros Hprompt Hprov.
  unfold earlier_predict_handler. rewrite Hprompt. cbn [bind].
  rewrite run_try_catch, run_bind, run_await_create, Hprov.
  destruct (run w (earlier_predict_answer completion)) as [t [r | e]]; reflexivity.
Qed.

Lemma main_alert_types_agree (risk_type : value) :
  field "type" (mainAlert_of risk_type)
  = field "type" (earlier_mainAlert_of risk_type).
Proof.
  unfold mainAlert_of, earlier_mainAlert_of.
  destruct (strict_eq_string risk_type "Hypo risk"); [reflexivity |].
  destruct (strict_eq_string risk_type "Hyper risk"); reflexivity.
Qed.

(** X22: the earlier predictive handler asks for no history and repairs
    nothing: the [forecast_mgdl] and the [risk_type] of the parsed object
    are reported as they are, there is no [baseline], and without a
    [risk_type] the main alert is the Stable one whatever the forecast. *)
Theorem earlier_predict_reports_parsed
        (reqbody : list (string * value)) (w : world) (p : prompt)
        (completion : value) (text : string)
        (parsed : list (string * value)) (m : number) :
  earlier_request_prompt reqbody = Ret p ->
  provider w (earlier_predict_request p) = Resolved completion ->
  completion_text completion text ->
  JSON_parse (json_slice text) = Some (VObj parsed) ->
  ToNumber (prop "forecast_minutes" parsed) = Ret m ->
  exists payload,
    run w (earlier_predict_handler reqbody)
    = ([Called (earlier_predict_request p); ReadClock], replied 200 payload)
    /\ field "forecast_mgdl" payload = prop "forecast_mgdl" parsed
    /\ field "risk" (the_alert payload) = prop "risk_type" parsed
    /\ field "baseline" payload = VUndefined
    /\ (lookup "risk_type" parsed = None ->
        field "type" (field "main_alert" payload) = VStr "Stable").
Proof.
  intros Hprompt Hprov Htext Hparse Hm.
  rewrite (run_earlier_predict_handler reqbody w p completion Hprompt Hprov).
  rewrite (run_earlier_predict_answer w completion text parsed m Htext Hparse Hm).
  eexists. split; [reflexivity |].
  split; [reflexivity |]. split; [reflexivity |]. split; [reflexivity |].
  intros Hrisk.
  cbn [field prop lookup String.eqb Ascii.eqb Bool.eqb].
  fold (prop "risk_type" parsed). unfold prop at 1. rewrite Hrisk. reflexivity.
Qed.

(** X23: on an answer that needs no repair (a [forecast_mgdl] that is a
    number, a truthy [risk_type]) the current predictive handler and the
    earlier one report the same [forecast_mgdl], the same alerts and the
    same type of main alert. *)
Theorem predict_agrees_with_earlier
        (reqbody : list (string * value)) (w : world) (b : number)
        (p p' : prompt) (completion completion' : value) (text : string)
        (parsed : list (string * value)) (f m : number) :
  history_missing (prop "glucoseHistory" reqbody) = false ->
  request_baseline reqbody = Ret b ->
  request_prompt reqbody = Ret p ->
  earlier_request_prompt reqbody = Ret p' ->
  provider w (predict_request p) = Resolved completion ->
  provider w (earlier_predict_request p') = Resolved completion' ->
  completion_text completion text ->
  completion_text completion' text ->
  JSON_parse (json_slice text) = Some (VObj parsed) ->
  ToNumber (prop "forecast_mgdl" parsed) = Ret f ->
  is_nan f = false ->
  ToBoolean (prop "risk_type" parsed) = true ->
  ToNumber (prop "forecast_minutes" parsed) = Ret m ->
  exists payload payload',
    run w (predict_handler reqbody)
    = ([Called (predict_request p); ReadClock], replied 200 payload)
    /\ run w (earlier_predict_handler reqbody)
       = ([Called (earlier_predict_request p'); ReadClock], replied 200 payload')
    /\ field "forecast_mgdl" payload = field "forecast_mgdl" payload'
    /\ field "alerts" payload = field "alerts" payload'
    /\ field "type" (field "main_alert" payload)
       = field "type" (field "main_alert" payload').
Proof.
  intros Hguard Hbase Hprompt Hprompt' Hprov Hprov' Htext Htext' Hparse
         Hf Hnan Hrisk Hm.
  rewrite (run_predict_handler reqbody w b p completion Hguard Hbase Hprompt Hprov).
  rewrite (run_predict_answer w b completion text parsed f m Htext Hparse Hf Hm).
  rewrite (run_earlier_predict_handler reqbody w p' completion' Hprompt' Hprov').
  rewrite (run_earlier_predict_answer w completion' text parsed m Htext' Hparse Hm).
  assert (Hsame : classified (if is_nan f then b else f) (substituted b f parsed)
                  = parsed).
  { unfold classified, substituted. rewrite Hnan, Hrisk. reflexivity. }
  rewrite Hsame.
  eexists. eexists. split; [reflexivity |]. split; [reflexivity |].
  unfold predict_payload.
  cbn [field prop lookup String.eqb Ascii.eqb Bool.eqb].
  split; [reflexivity |]. split; [reflexivity |].
  apply main_alert_types_agree.
Qed.

End EarlierOutcomes.


(** X22, witness: a request without anything, answered 95 without a
    category: the main alert is the Stable one. *)
Lemma earlier_predict_reports_parsed_witness :
  exists payload,
    run (world_answering answer_without_risk 0 some_evening)
        (earlier_predict_handler [])
    = ([Called (earlier_predict_request
                  (PredictPrompt "undefined" "undefined" "undefined" "undefined"
                                 "undefined"));
        ReadClock],
       replied 200 payload)
    /\ field "forecast_mgdl" payload = VNum (Fin 95)
    /\ field "risk" (the_alert payload) = VUndefined
    /\ field "baseline" payload = VUndefined
    /\ field "type" (field "main_alert" payload) = VStr "Stable".
Proof.
  destruct (earlier_predict_reports_parsed
              (P := reference_platform)
              [] (world_answering answer_without_risk 0 some_evening)
              (PredictPrompt "undefined" "undefined" "undefined" "undefined"
                             "undefined")
              (completion_with (VStr answer_without_risk))
              answer_without_risk
              [("forecast_mgdl", VNum (Fin 95)); ("forecast_minutes", VNum (Fin 30))]
              (Fin 30)
              eq_refl eq_refl
              (completion_with_text answer_without_risk)
              eq_refl eq_refl)
    as [payload [Hrun [Hforecast [Hrisk [Hbaseline Htype]]]]].
  exists payload. split; [exact Hrun |].
  split; [exact Hforecast |]. split; [exact Hrisk |].
  split; [exact Hbaseline |]. apply Htype. reflexivity.
Defined.

(** X23, witness: the request [one_reading], answered in the format of the
    prompt. *)
Lemma predict_agrees_with_earlier_witness :
  exists payload payload',
    run (world_answering answer_complete 0 some_evening)
        (predict_handler one_reading)
    = ([Called (predict_request
                  (PredictPrompt "120" "undefined" "undefined" "undefined"
                                 "undefined"));
        ReadClock],
       replied 200 payload)
    /\ run (world_answering answer_complete 0 some_evening)
           (earlier_predict_handler one_reading)
       = ([Called (earlier_predict_request
                     (PredictPrompt "120" "undefined" "undefined" "undefined"
                                    "undefined"));
           ReadClock],
          replied 200 payload')
    /\ field "forecast_mgdl" payload = field "forecast_mgdl" payload'
    /\ field "alerts" payload = field "alerts" payload'
    /\ field "type" (field "main_alert" payload)
       = field "type" (field "main_alert" payload').
Proof.
  exact (predict_agrees_with_earlier
           one_reading
           (world_answering answer_complete 0 some_evening)
           (Fin 120)
           (PredictPrompt "120" "undefined" "undefined" "undefined" "undefined")
           (PredictPrompt "120" "undefined" "undefined" "undefined" "undefined")
           (completion_with (VStr answer_complete))
           (completion_with (VStr answer_complete))
           answer_complete
           [("forecast_mgdl", VNum (Fin 110)); ("risk_type", VStr "Stable");
            ("forecast_minutes", VNum (Fin 30))]
           (Fin 110) (Fin 30)
           eq_refl eq_refl eq_refl eq_refl eq_refl eq_refl
           (completion_with_text answer_complete)
           (completion_with_text answer_complete)
           eq_refl eq_refl eq_refl eq_refl eq_refl).
Defined.
